(** * Comment-interaction runner: a shallow embedding of [loop_agent_runner.py]

    The development follows the Python module top to bottom: Python values
    and truthiness, [json.dumps] on the seed dictionary, the ADK data types
    the module touches ([Part], [Content], [Event], [Session]), the agent
    descriptors, and [run_comment_interaction] itself, written in a small
    state-and-exception monad so that every [try]/[except] of the source is
    a [try_except] of the model.  The session service and the runner are
    library objects; they are section variables, so every general theorem
    holds for all of their behaviours, faults included.

    Conventions.
    - The [print] calls are left out; the calls made on the session service
      and on the runner are logged in the frame instead.
    - [uuid.uuid4()] is a parameter of the invocation.
    - Building [types.Content] and [Runner(...)] (source lines 70 and 82-86,
      both outside any [try]) only assembles a record.
    - A run of the generator returned by [runner.run] is a finite sequence
      of events ended by a normal stop or by an exception: a generation
      call that never answers is outside the model.
    - The instruction texts of the agents are read from files that the
      module does not contain; no property below depends on them. *)

From Stdlib Require Import Ascii String.
From stdpp Require Import gmap strings list fin_maps pretty.

Set Warnings "-register-all".
Open Scope string_scope.

(** ** Python values *)

(** The values a session state or a result dictionary can hold.  A state is
    an unordered mapping from string keys to values. *)
Inductive PyVal : Type :=
  | VNone
  | VBool (b : bool)
  | VInt (n : Z)
  | VStr (s : string)
  | VList (l : list PyVal)
  | VDict (d : gmap string PyVal).

(** Python truthiness ([bool(v)]): [None], [False], [0], the empty string
    and the empty containers are falsy. *)
Definition truthy (v : PyVal) : bool :=
  match v with
  | VNone => false
  | VBool b => b
  | VInt n => negb (n =? 0)%Z
  | VStr s => negb (String.eqb s "")
  | VList l => match l with [] => false | _ :: _ => true end
  | VDict d => negb (bool_decide (size d = 0))
  end.

(** An [Optional[str]] local variable seen as a value. *)
Definition of_opt_str (o : option string) : PyVal :=
  match o with
  | None => VNone
  | Some s => VStr s
  end.

(** [d.get(k)]: the value under [k], or [None]. *)
Definition dict_get (d : gmap string PyVal) (k : string) : PyVal :=
  default VNone (d !! k).

(** ** Exceptions *)

(** An exception is represented by what [f"{e}"] prints. *)
Record Exn := Exception { exn_str : string }.

(** ** [json.dumps] on a dictionary of strings

    A Python [str] is modelled by a string whose characters are the code
    points themselves, so the model covers the texts whose code points are
    all below 256 and no other: texts with higher code points (which
    [json.dumps] writes as [\uXXXX], with surrogate pairs above U+FFFF)
    are outside it.  On the texts covered, with the default
    [ensure_ascii=True], every character outside [' '..'~'] is escaped, the
    quote and the backslash too; items are joined with [", "] and keys are
    separated from values with [": "], in insertion order.  The theorems
    below use the serialised text only as the content of the message; none
    depends on how a character is escaped. *)
Module Json.

Definition quote : string := String (ascii_of_nat 34) "".
Definition backslash : string := String (ascii_of_nat 92) "".

Definition hex_digit (n : nat) : string :=
  match String.get n "0123456789abcdef" with
  | Some c => String c ""
  | None => "0"
  end.

Definition escape_char (c : ascii) : string :=
  let n := nat_of_ascii c in
  if (n =? 34)%nat then backslash +:+ quote
  else if (n =? 92)%nat then backslash +:+ backslash
  else if (n =? 8)%nat then backslash +:+ "b"
  else if (n =? 12)%nat then backslash +:+ "f"
  else if (n =? 10)%nat then backslash +:+ "n"
  else if (n =? 13)%nat then backslash +:+ "r"
  else if (n =? 9)%nat then backslash +:+ "t"
  else if ((32 <=? n) && (n <=? 126))%nat then String c ""
  else backslash +:+ "u00" +:+ hex_digit (n / 16) +:+ hex_digit (n mod 16).

Fixpoint escape (s : string) : string :=
  match s with
  | EmptyString => ""
  | String c rest => escape_char c +:+ escape rest
  end.

Definition dumps_str (s : string) : string := quote +:+ escape s +:+ quote.

Definition dumps_item (kv : string * string) : string :=
  dumps_str kv.1 +:+ ": " +:+ dumps_str kv.2.

Fixpoint join_items (items : list (string * string)) : string :=
  match items with
  | [] => ""
  | [kv] => dumps_item kv
  | kv :: rest => dumps_item kv +:+ ", " +:+ join_items rest
  end.

(** [json.dumps(d)] for a [dict] with string keys and string values, given
    as its items in insertion order. *)
Definition dumps (d : list (string * string)) : string :=
  "{" +:+ join_items d +:+ "}".

End Json.

(** ** The ADK data types the module touches *)

(** [types.Part]: only its [text] attribute is read. *)
Record Part := { text : option string }.

(** [types.Content]: a role and an optional list of parts. *)
Record Content := { role : string; parts : option (list Part) }.

(** An event yielded by [runner.run].  [final_flag] is what the event's
    [is_final_response()] method answers. *)
Record Event := { author : string; content : option Content; final_flag : bool }.

Definition is_final_response (e : Event) : bool := final_flag e.

(** [event.content.parts[0].text], with the three ways it can raise. *)
Definition first_part_text (e : Event) : Exn + option string :=
  match content e with
  | None => inl (Exception "'NoneType' object has no attribute 'parts'")
  | Some c =>
      match parts c with
      | None => inl (Exception "'NoneType' object is not subscriptable")
      | Some [] => inl (Exception "list index out of range")
      | Some (p :: _) => inr (text p)
      end
  end.

(** A session as returned by the session service: only [state] is read. *)
Record Session := { session_id_of : string; state : gmap string PyVal }.

(** ** Agent definitions (source lines 30-53) *)

Record LlmAgent := { name : string; model : string; output_key : string }.

Definition state_setup_agent : LlmAgent :=
  {| name := "StateSetup"; model := "gemini-1.5-pro-latest";
     output_key := "initial_data" |}.

Definition comment_analyzer_agent : LlmAgent :=
  {| name := "CommentAnalyzer"; model := "gemini-1.5-flash";
     output_key := "analysis" |}.

Definition comment_responder_agent : LlmAgent :=
  {| name := "CommentResponder"; model := "gemini-1.5-flash";
     output_key := "final_response" |}.

Record SequentialAgent := { seq_name : string; sub_agents : list LlmAgent }.

Definition comment_interaction_agent : SequentialAgent :=
  {| seq_name := "CommentInteraction";
     sub_agents := [state_setup_agent; comment_analyzer_agent;
                    comment_responder_agent] |}.

(** ** Global resources (source lines 57-59) *)

Definition APP_NAME : string := "comment_responder_app".
Definition USER_ID : string := "web_user_01".

(** [Runner(agent=..., app_name=..., session_service=...)]; the session
    service is the shared store the model threads explicitly. *)
Record Runner := { agent : SequentialAgent; app_name : string }.

(** What iterating the generator returned by [runner.run] does: it yields
    events one at a time, each after the store has been updated, and then
    either stops or raises.  The store reached so far is recorded at every
    step, because the consumer may abandon the generator half way. *)
Inductive EventStream (Σ : Type) : Type :=
  | Yield (e : Event) (σ : Σ) (rest : EventStream Σ)
  | Stop (σ : Σ)
  | Fault (x : Exn) (σ : Σ).
Arguments Yield {Σ} e σ rest.
Arguments Stop {Σ} σ.
Arguments Fault {Σ} x σ.

(** The interface of the session service: both operations may raise, and
    [get_session] may answer [None]. *)
Record SessionService (Σ : Type) := {
  create_session : Σ → string → string → string → (Exn + Session) * Σ;
  get_session : Σ → string → string → string → (Exn + option Session) * Σ
}.
Arguments create_session {Σ} _ _ _ _ _.
Arguments get_session {Σ} _ _ _ _ _.

(** The calls an invocation makes on the shared objects, in order. *)
Inductive Call :=
  | CreateSession (app user sid : string)
  | RunnerRun (user sid : string) (msg : Content)
  | GetSession (app user sid : string).

Definition is_get_session (c : Call) : bool :=
  match c with
  | GetSession _ _ _ => true
  | _ => false
  end.

(** ** The interaction function *)
Section Interaction.

Context {Σ : Type}.
Variable session_service : SessionService Σ.
Variable run : Runner → Σ → string → string → Content → EventStream Σ.

(** The mutable part of an invocation: the shared store, the log of the
    calls made on it, and the three local variables that the [try] block
    and its handler both assign. *)
Record Frame := {
  store : Σ;
  calls : list Call;
  final_response_text : option string;
  error_message : option string;
  final_state_dict : gmap string PyVal
}.

(** A computation either raises or returns, and the frame survives a
    raise: assignments made before the exception are kept. *)
Definition M (A : Type) : Type := Frame → (Exn + A) * Frame.

Definition ret {A} (a : A) : M A := λ fr, (inr a, fr).

Definition bind {A B} (m : M A) (k : A → M B) : M B :=
  λ fr, match m fr with
        | (inl e, fr') => (inl e, fr')
        | (inr a, fr') => k a fr'
        end.

Definition raise {A} (e : Exn) : M A := λ fr, (inl e, fr).

(** [try: body except Exception as e: handler(e)]. *)
Definition try_except {A} (body : M A) (handler : Exn → M A) : M A :=
  λ fr, match body fr with
        | (inl e, fr') => handler e fr'
        | (inr a, fr') => (inr a, fr')
        end.

(** A [try] whose handler leaves the function: the outcome of the body
    is handed to the code that follows, which returns at once on [inl]. *)
Definition attempt {A} (body : M A) : M (Exn + A) :=
  try_except (bind body (λ a, ret (inr a))) (λ e, ret (inl e)).

Definition lift {A} (r : Exn + A) : M A :=
  match r with
  | inl e => raise e
  | inr a => ret a
  end.

Definition set_store (σ : Σ) : M unit :=
  λ fr, (inr tt, {| store := σ; calls := calls fr;
                    final_response_text := final_response_text fr;
                    error_message := error_message fr;
                    final_state_dict := final_state_dict fr |}).

Definition log_call (c : Call) : M unit :=
  λ fr, (inr tt, {| store := store fr; calls := calls fr ++ [c];
                    final_response_text := final_response_text fr;
                    error_message := error_message fr;
                    final_state_dict := final_state_dict fr |}).

Definition set_final_response_text (t : option string) : M unit :=
  λ fr, (inr tt, {| store := store fr; calls := calls fr;
                    final_response_text := t;
                    error_message := error_message fr;
                    final_state_dict := final_state_dict fr |}).

Definition set_error_message (m : option string) : M unit :=
  λ fr, (inr tt, {| store := store fr; calls := calls fr;
                    final_response_text := final_response_text fr;
                    error_message := m;
                    final_state_dict := final_state_dict fr |}).

Definition set_final_state_dict (d : gmap string PyVal) : M unit :=
  λ fr, (inr tt, {| store := store fr; calls := calls fr;
                    final_response_text := final_response_text fr;
                    error_message := error_message fr;
                    final_state_dict := d |}).

Definition read {A} (f : Frame → A) : M A := λ fr, (inr (f fr), fr).

Notation "x <- c1 ;; c2" := (bind c1 (λ x, c2))
  (at level 100, c1 at next level, right associativity).
Notation "c1 ;; c2" := (bind c1 (λ _, c2))
  (at level 100, right associativity).

(** [session_service.create_session(app_name=, user_id=, session_id=)]. *)
Definition call_create_session (app user sid : string) : M Session :=
  log_call (CreateSession app user sid) ;;
  σ <- read store ;;
  let '(r, σ') := create_session session_service σ app user sid in
  set_store σ' ;;
  lift r.

(** [session_service.get_session(app_name=, user_id=, session_id=)]. *)
Definition call_get_session (app user sid : string) : M (option Session) :=
  log_call (GetSession app user sid) ;;
  σ <- read store ;;
  let '(r, σ') := get_session session_service σ app user sid in
  set_store σ' ;;
  lift r.

(** [d[k]]: raises [KeyError] when the key is missing. *)
Definition subscript (d : gmap string PyVal) (k : string) : M PyVal :=
  match d !! k with
  | Some v => ret v
  | None => raise (Exception ("'" +:+ k +:+ "'"))
  end.

(** Source lines 101-103: the loop over the events. *)
Fixpoint for_events (events : EventStream Σ) : M unit :=
  match events with
  | Yield event σ rest =>
      set_store σ ;;
      (if is_final_response event
       then t <- lift (first_part_text event) ;; set_final_response_text t
       else ret tt) ;;
      for_events rest
  | Stop σ => set_store σ
  | Fault x σ => set_store σ ;; raise x
  end.

(** Source lines 94-103: [runner.run(...)] and the loop that drains it. *)
Definition run_sequence (runner : Runner) (user sid : string)
    (new_message : Content) : M unit :=
  log_call (RunnerRun user sid new_message) ;;
  σ <- read store ;;
  for_events (run runner σ user sid new_message).

(** Source lines 68-70. *)
Definition initial_message (comment context tone : string) : Content :=
  let initial_message_data :=
    [("comment", comment); ("context", context); ("tone", tone)] in
  let initial_message_content := Json.dumps initial_message_data in
  {| role := "user";
     parts := Some [ {| text := Some initial_message_content |} ] |}.

(** Source lines 105-112: the read after a clean run. *)
Definition fetch_final_state (sid : string) : M unit :=
  final_session <- call_get_session APP_NAME USER_ID sid ;;
  match final_session with
  | Some s => set_final_state_dict (state s)
  | None => set_error_message (Some "Failed to retrieve final session state.")
  end.

(** Source lines 114-123: the handler of the outer [try]. *)
Definition on_execution_error (sid : string) (e : Exn) : M unit :=
  try_except
    (final_session <- call_get_session APP_NAME USER_ID sid ;;
     match final_session with
     | Some s => set_final_state_dict (state s)
     | None => ret tt
     end)
    (λ _, ret tt) ;;
  set_error_message (Some ("Agent execution failed: " +:+ exn_str e)).

(** Source lines 92-123: the guarded block. *)
Definition guarded_run (runner : Runner) (sid : string)
    (new_message : Content) : M unit :=
  try_except
    (run_sequence runner USER_ID sid new_message ;;
     fetch_final_state sid)
    (on_execution_error sid).

(** Source lines 126-135: the result dictionary and the fallback. *)
Definition prepare_results (sid : string) : M (gmap string PyVal) :=
  fsd <- read final_state_dict ;;
  em <- read error_message ;;
  let result : gmap string PyVal :=
    <["error" := of_opt_str em]>
      (<["final_response" := dict_get fsd "final_response"]>
         (<["final_state" := VDict fsd]>
            (<["session_id" := VStr sid]> ∅))) in
  current <- subscript result "final_response" ;;
  frt <- read final_response_text ;;
  if negb (truthy current) && truthy (of_opt_str frt)
  then ret (<["final_response" := of_opt_str frt]> result)
  else ret result.

(** Source lines 63-141.  [uuid4] is the text of the identifier drawn by
    [uuid.uuid4()]. *)
Definition run_comment_interaction (uuid4 : string)
    (comment context tone : string) : M (gmap string PyVal) :=
  let session_id := "session_" +:+ uuid4 in
  let new_message := initial_message comment context tone in
  created <- attempt (call_create_session APP_NAME USER_ID session_id) ;;
  match created with
  | inl e =>
      ret {[ "error" := VStr ("Failed to create session: " +:+ exn_str e) ]}
  | inr _ =>
      let runner := {| agent := comment_interaction_agent;
                       app_name := APP_NAME |} in
      set_final_response_text None ;;
      set_error_message None ;;
      set_final_state_dict ∅ ;;
      guarded_run runner session_id new_message ;;
      prepare_results session_id
  end.

End Interaction.

Arguments Frame Σ : clear implicits.
Arguments M Σ A : clear implicits.

(** The frame on entry: nothing called yet, no local assigned. *)
Definition entry_frame {Σ} (σ : Σ) : Frame Σ :=
  {| store := σ; calls := []; final_response_text := None;
     error_message := None; final_state_dict := ∅ |}.

(** The frame once the session has been created (or refused). *)
Definition created_frame {Σ} (σ1 : Σ) (sid : string) : Frame Σ :=
  {| store := σ1; calls := [CreateSession APP_NAME USER_ID sid];
     final_response_text := None; error_message := None;
     final_state_dict := ∅ |}.

(** One invocation from store [σ]: what the caller gets (a dictionary, or
    an exception that escaped) and the frame the invocation ended in. *)
Definition invoke {Σ} (service : SessionService Σ)
    (run : Runner → Σ → string → string → Content → EventStream Σ)
    (σ : Σ) (uuid4 comment context tone : string)
    : (Exn + gmap string PyVal) * Frame Σ :=
  run_comment_interaction service run uuid4 comment context tone (entry_frame σ).

(** ** Summaries used to state the theorems *)

(** What the loop of lines 101-103 leaves behind: the exception that
    stopped it (if any), the text captured last, and the store reached. *)
Fixpoint drain {Σ} (events : EventStream Σ) (captured : option string)
    : option Exn * option string * Σ :=
  match events with
  | Yield event σ rest =>
      if is_final_response event
      then match first_part_text event with
           | inl e => (Some e, captured, σ)
           | inr t => drain rest t
           end
      else drain rest captured
  | Stop σ => (None, captured, σ)
  | Fault x σ => (Some x, captured, σ)
  end.

(** The value lines 129-135 leave under ["final_response"]. *)
Definition extracted (fsd : gmap string PyVal) (frt : option string) : PyVal :=
  let current := dict_get fsd "final_response" in
  if negb (truthy current) && truthy (of_opt_str frt)
  then of_opt_str frt
  else current.

(** The four keys of a full result. *)
Definition result_keys : list string :=
  ["session_id"; "final_state"; "final_response"; "error"].

Definition count_get_session (l : list Call) : nat :=
  length (filter (λ c, is_get_session c = true) l).

(** ** The in-memory store and the three-stage pipeline *)

(** What a stage is given: the state accumulated so far and the message of
    the request. *)
Record StageInput := {
  in_state : gmap string PyVal;
  in_message : Content
}.

(** What a generation call answers: the text, and whether the event that
    carries it reports itself as a final response.  Line 102 of the source
    asks every event, whatever its author, so the flag is the backend's. *)
Record StageReply := { reply_text : string; reply_final : bool }.

(** The generation backend: a black box that answers or fails. *)
Definition Backend : Type := LlmAgent → StageInput → Exn + StageReply.

(** The shared store: one state container per (app, user, session) key,
    and the record of the stage runs, kept to state ordering properties. *)
Record World := {
  sessions : gmap (string * string * string) (gmap string PyVal);
  stage_calls : list (LlmAgent * StageInput)
}.

(** Modelled from the spec: [InMemorySessionService.create_session] (library
    code, absent from src/).  §4.1: registers a new, empty state container
    under the identifier, and fails if the identifier already exists. *)
Definition in_memory_create (w : World) (app user sid : string)
    : (Exn + Session) * World :=
  match sessions w !! (app, user, sid) with
  | Some _ => (inl (Exception ("DuplicateSessionError: " +:+ sid)), w)
  | None =>
      (inr {| session_id_of := sid; state := ∅ |},
       {| sessions := <[(app, user, sid) := ∅]> (sessions w);
          stage_calls := stage_calls w |})
  end.

(** Modelled from the spec: [InMemorySessionService.get_session] (library
    code, absent from src/).  §4.1: retrieval is side-effect-free and
    answers the container or not-found. *)
Definition in_memory_get (w : World) (app user sid : string)
    : (Exn + option Session) * World :=
  (inr ((λ st, {| session_id_of := sid; state := st |})
          <$> sessions w !! (app, user, sid)), w).

Definition in_memory_service : SessionService World :=
  {| create_session := in_memory_create; get_session := in_memory_get |}.

(** The event a stage emits for its reply. *)
Definition stage_event (a : LlmAgent) (r : StageReply) : Event :=
  {| author := name a;
     content := Some {| role := "model";
                        parts := Some [ {| text := Some (reply_text r) |} ] |};
     final_flag := reply_final r |}.

(** Modelled from the spec: the executor behind [Runner.run] on a
    [SequentialAgent] of [LlmAgent]s with an [output_key] (library code,
    absent from src/).  §4.2-4.3: stages run strictly in sequence; each
    reads the state accumulated so far; on success its output is merged
    into the state under its output key before the next stage starts; the
    first failure halts the run and the state written so far stays. *)
Fixpoint run_stages (backend : Backend) (key : string * string * string)
    (msg : Content) (stages : list LlmAgent) (w : World) : EventStream World :=
  match stages with
  | [] => Stop w
  | a :: rest =>
      match sessions w !! key with
      | None => Fault (Exception ("Session not found: " +:+ key.2)) w
      | Some st =>
          let input := {| in_state := st; in_message := msg |} in
          let w1 := {| sessions := sessions w;
                       stage_calls := stage_calls w ++ [(a, input)] |} in
          match backend a input with
          | inl x => Fault x w1
          | inr r =>
              let st' := <[output_key a := VStr (reply_text r)]> st in
              let w2 := {| sessions := <[key := st']> (sessions w1);
                           stage_calls := stage_calls w1 |} in
              Yield (stage_event a r) w2 (run_stages backend key msg rest w2)
          end
      end
  end.

(** [runner.run(user_id=, session_id=, new_message=)] for the pipeline. *)
Definition pipeline_run (backend : Backend) (runner : Runner) (w : World)
    (user sid : string) (new_message : Content) : EventStream World :=
  run_stages backend (app_name runner, user, sid) new_message
    (sub_agents (agent runner)) w.

(** One invocation of the whole system on the in-memory store. *)
Definition pipeline_invoke (backend : Backend) (w : World)
    (uuid4 comment context tone : string) :=
  invoke in_memory_service (pipeline_run backend) w uuid4 comment context tone.

Definition empty_world : World := {| sessions := ∅; stage_calls := [] |}.

Definition stages_run (w : World) : list LlmAgent := (stage_calls w).*1.

(** What a run of [stages] from state [st] amounts to: the stage runs made,
    the state reached, the failure that stopped it, and the text the loop of
    lines 101-103 holds at the end. *)
Record Summary := {
  sm_calls : list (LlmAgent * StageInput);
  sm_state : gmap string PyVal;
  sm_error : option Exn;
  sm_captured : option string
}.

Fixpoint stage_summary (backend : Backend) (msg : Content)
    (stages : list LlmAgent) (st : gmap string PyVal)
    (captured : option string) : Summary :=
  match stages with
  | [] => {| sm_calls := []; sm_state := st; sm_error := None;
             sm_captured := captured |}
  | a :: rest =>
      let input := {| in_state := st; in_message := msg |} in
      match backend a input with
      | inl x => {| sm_calls := [(a, input)]; sm_state := st;
                    sm_error := Some x; sm_captured := captured |}
      | inr r =>
          let s := stage_summary backend msg rest
                     (<[output_key a := VStr (reply_text r)]> st)
                     (if reply_final r then Some (reply_text r) else captured) in
          {| sm_calls := (a, input) :: sm_calls s; sm_state := sm_state s;
             sm_error := sm_error s; sm_captured := sm_captured s |}
      end
  end.

(** The key of an invocation's session in the store. *)
Definition session_key (uuid4 : string) : string * string * string :=
  (APP_NAME, USER_ID, "session_" +:+ uuid4).

(** The input of the first stage of a fresh session. *)
Definition setup_input (comment context tone : string) : StageInput :=
  {| in_state := ∅; in_message := initial_message comment context tone |}.

(** The state after Setup answered [r0], and after Analyzer answered [r1]. *)
Definition state_after_setup (r0 : StageReply) : gmap string PyVal :=
  <["initial_data" := VStr (reply_text r0)]> ∅.

Definition state_after_analyzer (r0 r1 : StageReply) : gmap string PyVal :=
  <["analysis" := VStr (reply_text r1)]> (state_after_setup r0).

Definition analyzer_input (comment context tone : string) (r0 : StageReply)
    : StageInput :=
  {| in_state := state_after_setup r0;
     in_message := initial_message comment context tone |}.

Definition responder_input (comment context tone : string)
    (r0 r1 : StageReply) : StageInput :=
  {| in_state := state_after_analyzer r0 r1;
     in_message := initial_message comment context tone |}.

(** The text the loop holds after a stage answered [r]. *)
Definition capture (r : StageReply) (before : option string) : option string :=
  if reply_final r then Some (reply_text r) else before.

(** ** Concrete environments for the examples *)
Module Examples.

Definition uuid : string := "0f8fad5b-d9cb-469f-a165-70867728950e".
Definition sid : string := "session_" +:+ uuid.

Definition comment : string := "Great post!".
Definition context : string := "Post about X".
Definition tone : string := "happy".

Definition setup_text : string := "{normalized seed}".

(** Every stage answers with a final-response event. *)
Definition good_backend : Backend :=
  λ a _, inr {| reply_text :=
                  if String.eqb (name a) "StateSetup" then setup_text
                  else if String.eqb (name a) "CommentAnalyzer" then "positive"
                  else "Thanks a lot!";
                reply_final := true |}.

(** The Analyzer's generation call times out. *)
Definition analyzer_down : Backend :=
  λ a i, if String.eqb (name a) "CommentAnalyzer"
         then inl (Exception "backend timeout")
         else good_backend a i.

(** A session service whose every operation raises. *)
Definition broken_service : SessionService unit :=
  {| create_session := λ σ _ _ _, (inl (Exception "store offline"), σ);
     get_session := λ σ _ _ _, (inl (Exception "store offline"), σ) |}.

(** A service that creates sessions but cannot read them back: the store
    is the state it would have answered, [get_session] raises or answers
    [None] according to [lost]. *)
Definition write_only_service (lost : bool) : SessionService unit :=
  {| create_session :=
       λ σ _ _ s, (inr {| session_id_of := s; state := ∅ |}, σ);
     get_session :=
       λ σ _ _ _, (if lost then inr None
                   else inl (Exception "store offline"), σ) |}.

(** A service that answers a fixed state. *)
Definition fixed_service (st : gmap string PyVal) : SessionService unit :=
  {| create_session :=
       λ σ _ _ s, (inr {| session_id_of := s; state := ∅ |}, σ);
     get_session :=
       λ σ _ _ s, (inr (Some {| session_id_of := s; state := st |}), σ) |}.

Definition text_event (who txt : string) : Event :=
  {| author := who;
     content := Some {| role := "model";
                        parts := Some [ {| text := Some txt |} ] |};
     final_flag := true |}.

(** A runner that yields the given events and stops. *)
Definition quiet_run (events : list Event)
    : Runner → unit → string → string → Content → EventStream unit :=
  λ _ σ _ _ _, foldr (λ e k, Yield e σ k) (Stop σ) events.

(** A runner that yields the given events and then raises. *)
Definition failing_run (events : list Event) (x : Exn)
    : Runner → unit → string → string → Content → EventStream unit :=
  λ _ σ _ _ _, foldr (λ e k, Yield e σ k) (Fault x σ) events.

End Examples.

(** ** The web layer ([main.py])

    The endpoints are functions of the application state (the global
    [mock_posts] and [next_comment_id]) and, for [add_comment], of the
    session store behind [run_comment_interaction].  [mock_posts] is a
    dictionary whose iteration order [list_posts] exposes and to which no
    key is ever added, so it is its list of items in insertion order.  The
    pydantic classes share field names; the fields carry the initials of
    their class. *)
Module Blog.

(** [Literal["neutral", "strict", "aggressive", "optimistic", "happy",
    "humorous"]]. *)
Inductive Tone := neutral | strict | aggressive | optimistic | happy | humorous.

Definition tone_literal (t : Tone) : string :=
  match t with
  | neutral => "neutral"
  | strict => "strict"
  | aggressive => "aggressive"
  | optimistic => "optimistic"
  | happy => "happy"
  | humorous => "humorous"
  end.

(** [class AgentResponse]. *)
Record AgentResponse := { ar_tone : string; ar_text : string }.

(** [class Comment]. *)
Record Comment := {
  c_id : string;
  c_commenter : string;
  c_text : string;
  c_agent_response : option AgentResponse
}.

(** [class PostSummary]. *)
Record PostSummary := { ps_title : string; ps_slug : string }.

(** A value of [mock_posts]: a dictionary with these five keys. *)
Record Post := {
  title : string;
  slug : string;
  content : string;
  audio_url : option string;
  comments : list Comment
}.

(** [class PostDetail]. *)
Record PostDetail := {
  pd_title : string;
  pd_slug : string;
  pd_content : string;
  pd_comments : list Comment;
  pd_audio_url : option string
}.

(** [class NewCommentRequest], after validation. *)
Record NewCommentRequest := {
  rq_commenter : string;
  rq_text : string;
  rq_tone : Tone
}.

(** The two module-level variables the endpoints read and write. *)
Record AppState := {
  mock_posts : list (string * Post);
  next_comment_id : nat
}.

(** What an endpoint can end with instead of its answer: the
    [HTTPException] it raises itself, or an exception it lets through. *)
Inductive Failure :=
  | HTTPException (status_code : nat) (detail : string)
  | Uncaught (e : Exn).

(** [mock_posts.get(post_slug)]. *)
Fixpoint posts_get (posts : list (string * Post)) (post_slug : string)
    : option Post :=
  match posts with
  | [] => None
  | (k, post) :: rest =>
      if String.eqb k post_slug then Some post else posts_get rest post_slug
  end.

(** [mock_posts[post_slug]["comments"].append(c)]. *)
Fixpoint posts_append (posts : list (string * Post)) (post_slug : string)
    (c : Comment) : list (string * Post) :=
  match posts with
  | [] => []
  | (k, post) :: rest =>
      if String.eqb k post_slug
      then (k, {| title := title post; slug := slug post;
                  content := content post; audio_url := audio_url post;
                  comments := comments post ++ [c] |}) :: rest
      else (k, post) :: posts_append rest post_slug c
  end.

(** Source lines 112-114. *)
Definition list_posts (app : AppState) : list PostSummary :=
  map (λ kv, {| ps_title := title kv.2; ps_slug := slug kv.2 |})
      (mock_posts app).

(** Source lines 117-122. *)
Definition get_post (app : AppState) (post_slug : string)
    : Failure + PostDetail :=
  match posts_get (mock_posts app) post_slug with
  | None => inl (HTTPException 404 "Post not found")
  | Some post =>
      inr {| pd_title := title post; pd_slug := slug post;
             pd_content := content post; pd_comments := comments post;
             pd_audio_url := audio_url post |}
  end.

Definition newline : string := String (ascii_of_nat 10) "".

(** Source line 133: the context handed to the agents. *)
Definition post_context (post : Post) : string :=
  "Blog Post Title: " +:+ title post +:+ newline +:+ newline +:+ content post.

(** Source lines 143-155: what becomes of the agent's result.  Building an
    [AgentResponse] validates [text: str]; a truthy value that is not a
    string is refused with a validation error. *)
Definition agent_response_of (tone : Tone) (agent_result : gmap string PyVal)
    : Exn + option AgentResponse :=
  if truthy (dict_get agent_result "error") then inr None
  else if truthy (dict_get agent_result "final_response") then
    match dict_get agent_result "final_response" with
    | VStr generated_response_text =>
        inr (Some {| ar_tone := tone_literal tone;
                     ar_text := generated_response_text |})
    | _ => inl (Exception "1 validation error for AgentResponse")
    end
  else inr None.

(** Source lines 125-168.  The answer, the application state afterwards,
    and the frame in which the interaction (if any) ended. *)
Definition add_comment {Σ} (service : SessionService Σ)
    (run : Runner → Σ → string → string → Content → EventStream Σ)
    (σ : Σ) (uuid4 : string) (app : AppState)
    (post_slug : string) (request : NewCommentRequest)
    : (Failure + Comment) * AppState * Frame Σ :=
  match posts_get (mock_posts app) post_slug with
  | None => (inl (HTTPException 404 "Post not found"), app, entry_frame σ)
  | Some post =>
      match invoke service run σ uuid4 (rq_text request) (post_context post)
              (tone_literal (rq_tone request)) with
      | (inl e, fr) => (inl (Uncaught e), app, fr)
      | (inr agent_result, fr) =>
          match agent_response_of (rq_tone request) agent_result with
          | inl e => (inl (Uncaught e), app, fr)
          | inr agent_response_obj =>
              let new_comment_data :=
                {| c_id := "c" +:+ pretty (next_comment_id app);
                   c_commenter := rq_commenter request;
                   c_text := rq_text request;
                   c_agent_response := agent_response_obj |} in
              (inr new_comment_data,
               {| mock_posts :=
                    posts_append (mock_posts app) post_slug new_comment_data;
                  next_comment_id := S (next_comment_id app) |},
               fr)
          end
      end
  end.

(** All comment identifiers of the store, post by post. *)
Definition comment_ids (posts : list (string * Post)) : list string :=
  flat_map (λ kv, map c_id (comments kv.2)) posts.

(** The numbering discipline of [next_comment_id]: every stored identifier
    is ["c"] followed by a number below the counter, and no identifier is
    stored twice. *)
Definition well_numbered (app : AppState) : Prop :=
  NoDup (comment_ids (mock_posts app))
  ∧ ∀ i, i ∈ comment_ids (mock_posts app) →
         ∃ n, i = "c" +:+ pretty n ∧ n < next_comment_id app.

(** Source lines 22-50: the state at start-up. *)
Definition post_tech_trends_2024 : Post :=
  {| title := "The plantation of our ancestors";
     slug := "tech-trends-2024";
     content :=
       "Maartje Duin follows the discussion about white privilege "
       +:+ "with growing discomfort. Her mother is a baroness from an "
       +:+ "old noble family; what role did her ancestors play in the "
       +:+ "Dutch slavery past? Maartje dives into her family tree and "
       +:+ "discovers that her great-great-great-grandmother was "
       +:+ "co-owner of a Surinamese plantation when slavery was "
       +:+ "abolished in 1863. Among the freed slaves, one surname "
       +:+ "stands out: Bouva. Are their descendants still alive?";
     audio_url := Some "/static/sprint3-podcast.mp3";
     comments :=
       [{| c_id := "c1"; c_commenter := "AI_fan";
            c_text := "Great overview! GenAI is changing everything.";
            c_agent_response := None |};
        {| c_id := "c2"; c_commenter := "Skeptic";
            c_text := "Quantum feels overhyped. What are the real use cases?";
            c_agent_response := None |}] |}.

Definition post_mindful_coding : Post :=
  {| title := "The comeback of Mr Red Flag, Marilyn Manson";
     slug := "mindful-coding";
     content :=
       "We stood with mixed feelings yesterday in the AFAS Live, "
       +:+ "where Marilyn Manson played his first Dutch show since he "
       +:+ "was accused of sexual abuse and assault by a dozen women. "
       +:+ "Incidentally, there was no sign of that discomfort in the "
       +:+ "audience, because I think we were the only ones last night "
       +:+ "who viewed the anti-Christ superstar through those glasses. "
       +:+ "About the comeback of Mr Red Flags and other controversial "
       +:+ "artists. And further: Leon Ramakers, one of the founders of "
       +:+ "the Dutch live sector, talks about his latest project: Cream "
       +:+ "radio.";
     audio_url := Some "/static/2.mp3";
     comments :=
       [{| c_id := "c3"; c_commenter := "DevDude";
            c_text := "Interesting concept, but hard to implement with deadlines.";
            c_agent_response := None |}] |}.

Definition post_climate_action_now : Post :=
  {| title := "Away with X and Meta";
     slug := "climate-action-now";
     content :=
       "Since the inauguration of Donald Trump on January 20th and "
       +:+ "the aggressive grabbing and creeping of Elon Musk in the "
       +:+ "American government institutions, a seismic shift has "
       +:+ "occurred among progressive citizens and cultural "
       +:+ "institutions when it comes to social media. Do we still have "
       +:+ "to be in that pool of perdition called X, where supposedly "
       +:+ "free speech reigns but where the algorithms are clearly set "
       +:+ "in such a way that the far-right filth sloshes over the "
       +:+ "edges? And what should we do with Meta, which also licks "
       +:+ "Trump's boots? And also in this episode: topliners, the "
       +:+ "invisible sharpshooters of the songwriting world.";
     audio_url := Some "/static/3.mp3";
     comments :=
       [] |}.

Definition mock_posts_0 : list (string * Post) :=
  [("tech-trends-2024", post_tech_trends_2024);
   ("mindful-coding", post_mindful_coding);
   ("climate-action-now", post_climate_action_now)].

Definition initial_app : AppState :=
  {| mock_posts := mock_posts_0; next_comment_id := 4 |}.

End Blog.




(** ** More concrete environments *)
Module Scenarios.



(** A request as the form of the site sends it. *)
Definition request_0 : Blog.NewCommentRequest :=
  {| Blog.rq_commenter := "Anonymous";
     Blog.rq_text := "Interesting episode.";
     Blog.rq_tone := Blog.happy |}.

(** The comment stored for [request_0] when no response was generated. *)
Definition comment_4 : Blog.Comment :=
  {| Blog.c_id := "c" +:+ pretty 4;
     Blog.c_commenter := "Anonymous";
     Blog.c_text := "Interesting episode.";
     Blog.c_agent_response := None |}.

(** A store answering a session whose state holds a reply. *)
Definition replied_state : gmap string PyVal :=
  {[ "final_response" := VStr "Thanks a lot!" ]}.

End Scenarios.

(** * Properties *)

(** ** The interaction function against an arbitrary service and runner *)
Section InteractionFacts.

Context {Σ : Type}.
Variable service : SessionService Σ.
Variable run : Runner → Σ → string → string → Content → EventStream Σ.

Let runner : Runner :=
  {| agent := comment_interaction_agent; app_name := APP_NAME |}.

(** The loop only moves the store and the captured text. *)
Lemma for_events_drain (events : EventStream Σ) (fr : Frame Σ) :
  for_events events fr =
    let '(o, captured, σ) := drain events (final_response_text fr) in
    (match o with None => inr tt | Some e => inl e end,
     {| store := σ; calls := calls fr; final_response_text := captured;
        error_message := error_message fr;
        final_state_dict := final_state_dict fr |}).
Proof.
  revert fr. induction events as [ev σ rest IH | σ | x σ]; intros fr.
  - cbn [for_events drain]. unfold bind, set_store at 1.
    destruct (is_final_response ev).
    + destruct (first_part_text ev) as [e | t]; cbn.
      * reflexivity.
      * rewrite IH. reflexivity.
    + cbn. rewrite IH. reflexivity.
  - reflexivity.
  - reflexivity.
Qed.

(** The result dictionary is always built, with its four keys. *)
Lemma prepare_results_spec (sid : string) (fr : Frame Σ) :
  ∃ result,
    prepare_results sid fr = (inr result, fr)
    ∧ result !! "session_id" = Some (VStr sid)
    ∧ result !! "final_state" = Some (VDict (final_state_dict fr))
    ∧ result !! "final_response"
        = Some (extracted (final_state_dict fr) (final_response_text fr))
    ∧ result !! "error" = Some (of_opt_str (error_message fr)).
Proof.
  unfold prepare_results, bind, read, subscript, extracted.
  rewrite lookup_insert_ne by done. rewrite lookup_insert_eq.
  unfold ret.
  destruct (negb (truthy (dict_get (final_state_dict fr) "final_response"))
            && truthy (of_opt_str (final_response_text fr))).
  - eexists; split; [reflexivity |]. by simplify_map_eq.
  - eexists; split; [reflexivity |]. by simplify_map_eq.
Qed.

(** The run or the loop raised: one read-back, then the error message. *)
Lemma guarded_raised (fr : Frame Σ) sid msg e captured σ2 r σ3 :
  drain (run runner (store fr) USER_ID sid msg) (final_response_text fr)
    = (Some e, captured, σ2) →
  get_session service σ2 APP_NAME USER_ID sid = (r, σ3) →
  guarded_run service run runner sid msg fr =
    (inr tt,
     {| store := σ3;
        calls := calls fr ++ [RunnerRun USER_ID sid msg;
                              GetSession APP_NAME USER_ID sid];
        final_response_text := captured;
        error_message := Some ("Agent execution failed: " +:+ exn_str e);
        final_state_dict :=
          match r with
          | inr (Some s) => state s
          | _ => final_state_dict fr
          end |}).
Proof.
  intros Hd Hg.
  unfold guarded_run, try_except, bind at 1, run_sequence, bind, log_call, read.
  rewrite for_events_drain. cbn. rewrite Hd. cbn.
  unfold on_execution_error, try_except, bind, call_get_session, bind,
    log_call, read. cbn. rewrite Hg. cbn.
  rewrite <- app_assoc. cbn.
  destruct r as [e' | [s |]]; reflexivity.
Qed.

(** The run was clean and the session was read. *)
Lemma guarded_clean_found (fr : Frame Σ) sid msg captured σ2 s σ3 :
  drain (run runner (store fr) USER_ID sid msg) (final_response_text fr)
    = (None, captured, σ2) →
  get_session service σ2 APP_NAME USER_ID sid = (inr (Some s), σ3) →
  guarded_run service run runner sid msg fr =
    (inr tt,
     {| store := σ3;
        calls := calls fr ++ [RunnerRun USER_ID sid msg;
                              GetSession APP_NAME USER_ID sid];
        final_response_text := captured;
        error_message := error_message fr;
        final_state_dict := state s |}).
Proof.
  intros Hd Hg.
  unfold guarded_run, try_except, bind at 1, run_sequence, bind, log_call, read.
  rewrite for_events_drain. cbn. rewrite Hd. cbn.
  unfold fetch_final_state, bind, call_get_session, bind, log_call, read.
  cbn. rewrite Hg. cbn. rewrite <- app_assoc. reflexivity.
Qed.

(** The run was clean and the service knows no such session. *)
Lemma guarded_clean_missing (fr : Frame Σ) sid msg captured σ2 σ3 :
  drain (run runner (store fr) USER_ID sid msg) (final_response_text fr)
    = (None, captured, σ2) →
  get_session service σ2 APP_NAME USER_ID sid = (inr None, σ3) →
  guarded_run service run runner sid msg fr =
    (inr tt,
     {| store := σ3;
        calls := calls fr ++ [RunnerRun USER_ID sid msg;
                              GetSession APP_NAME USER_ID sid];
        final_response_text := captured;
        error_message := Some "Failed to retrieve final session state.";
        final_state_dict := final_state_dict fr |}).
Proof.
  intros Hd Hg.
  unfold guarded_run, try_except, bind at 1, run_sequence, bind, log_call, read.
  rewrite for_events_drain. cbn. rewrite Hd. cbn.
  unfold fetch_final_state, bind, call_get_session, bind, log_call, read.
  cbn. rewrite Hg. cbn. rewrite <- app_assoc. reflexivity.
Qed.

(** The run was clean but the read of line 106 raised: the handler reads
    once more. *)
Lemma guarded_clean_unreadable (fr : Frame Σ) sid msg captured σ2 e σ3 r σ4 :
  drain (run runner (store fr) USER_ID sid msg) (final_response_text fr)
    = (None, captured, σ2) →
  get_session service σ2 APP_NAME USER_ID sid = (inl e, σ3) →
  get_session service σ3 APP_NAME USER_ID sid = (r, σ4) →
  guarded_run service run runner sid msg fr =
    (inr tt,
     {| store := σ4;
        calls := calls fr ++ [RunnerRun USER_ID sid msg;
                              GetSession APP_NAME USER_ID sid;
                              GetSession APP_NAME USER_ID sid];
        final_response_text := captured;
        error_message := Some ("Agent execution failed: " +:+ exn_str e);
        final_state_dict :=
          match r with
          | inr (Some s) => state s
          | _ => final_state_dict fr
          end |}).
Proof.
  intros Hd Hg Hg'.
  unfold guarded_run, try_except, bind at 1, run_sequence, bind, log_call, read.
  rewrite for_events_drain. cbn. rewrite Hd. cbn.
  unfold fetch_final_state, bind, call_get_session, bind, log_call, read.
  cbn. rewrite Hg. cbn.
  unfold on_execution_error, try_except, bind, call_get_session, bind,
    log_call, read. cbn. rewrite Hg'. cbn.
  rewrite <- !app_assoc. cbn.
  destruct r as [e' | [s |]]; reflexivity.
Qed.

(** Nothing escapes the guarded block. *)
Lemma guarded_returns (fr : Frame Σ) sid msg :
  ∃ fr', guarded_run service run runner sid msg fr = (inr tt, fr').
Proof.
  destruct (drain (run runner (store fr) USER_ID sid msg)
              (final_response_text fr)) as [[o captured] σ2] eqn:Hd.
  destruct (get_session service σ2 APP_NAME USER_ID sid) as [r σ3] eqn:Hg.
  destruct o as [e |].
  - eexists. eapply guarded_raised; eassumption.
  - destruct r as [e | [s |]].
    + destruct (get_session service σ3 APP_NAME USER_ID sid)
        as [r' σ4] eqn:Hg'.
      eexists. eapply guarded_clean_unreadable; eassumption.
    + eexists. eapply guarded_clean_found; eassumption.
    + eexists. eapply guarded_clean_missing; eassumption.
Qed.

Lemma invoke_refused σ uuid c x t e σ1 :
  create_session service σ APP_NAME USER_ID ("session_" +:+ uuid)
    = (inl e, σ1) →
  invoke service run σ uuid c x t =
    (inr {[ "error" := VStr ("Failed to create session: " +:+ exn_str e) ]},
     created_frame σ1 ("session_" +:+ uuid)).
Proof.
  intros Hc.
  unfold invoke, run_comment_interaction, bind at 1, attempt, try_except,
    bind at 1, call_create_session, bind, log_call, read.
  cbn. rewrite Hc. reflexivity.
Qed.

Lemma invoke_created σ uuid c x t s σ1 :
  create_session service σ APP_NAME USER_ID ("session_" +:+ uuid)
    = (inr s, σ1) →
  invoke service run σ uuid c x t =
    bind (guarded_run service run runner ("session_" +:+ uuid)
            (initial_message c x t))
         (λ _, prepare_results ("session_" +:+ uuid))
         (created_frame σ1 ("session_" +:+ uuid)).
Proof.
  intros Hc.
  unfold invoke, run_comment_interaction, bind at 1, attempt, try_except,
    bind at 1, call_create_session, bind, log_call, read.
  cbn. rewrite Hc. reflexivity.
Qed.

(** The three shapes of a full result, each with the frame it leaves. *)
Lemma invoke_raised σ uuid c x t s σ1 e captured σ2 r σ3 :
  create_session service σ APP_NAME USER_ID ("session_" +:+ uuid)
    = (inr s, σ1) →
  drain (run runner σ1 USER_ID ("session_" +:+ uuid) (initial_message c x t))
    None = (Some e, captured, σ2) →
  get_session service σ2 APP_NAME USER_ID ("session_" +:+ uuid) = (r, σ3) →
  let fsd := match r with inr (Some s') => state s' | _ => ∅ end in
  ∃ result,
    invoke service run σ uuid c x t =
      (inr result,
       {| store := σ3;
          calls := [CreateSession APP_NAME USER_ID ("session_" +:+ uuid);
                    RunnerRun USER_ID ("session_" +:+ uuid)
                      (initial_message c x t);
                    GetSession APP_NAME USER_ID ("session_" +:+ uuid)];
          final_response_text := captured;
          error_message := Some ("Agent execution failed: " +:+ exn_str e);
          final_state_dict := fsd |})
    ∧ result !! "session_id" = Some (VStr ("session_" +:+ uuid))
    ∧ result !! "final_state" = Some (VDict fsd)
    ∧ result !! "final_response" = Some (extracted fsd captured)
    ∧ result !! "error"
        = Some (VStr ("Agent execution failed: " +:+ exn_str e)).
Proof.
  intros Hc Hd Hg fsd. rewrite (invoke_created _ _ _ _ _ _ _ Hc). unfold bind.
  rewrite (guarded_raised (created_frame σ1 ("session_" +:+ uuid))
             _ _ _ _ _ _ _ Hd Hg).
  match goal with
  | |- context [prepare_results ?sid ?fr] =>
      destruct (prepare_results_spec sid fr)
        as (result & -> & Hs & Hf & Hr & He)
  end.
  exists result. split; [reflexivity |]. by repeat split.
Qed.

Lemma invoke_clean_found σ uuid c x t s σ1 captured σ2 s' σ3 :
  create_session service σ APP_NAME USER_ID ("session_" +:+ uuid)
    = (inr s, σ1) →
  drain (run runner σ1 USER_ID ("session_" +:+ uuid) (initial_message c x t))
    None = (None, captured, σ2) →
  get_session service σ2 APP_NAME USER_ID ("session_" +:+ uuid)
    = (inr (Some s'), σ3) →
  ∃ result,
    invoke service run σ uuid c x t =
      (inr result,
       {| store := σ3;
          calls := [CreateSession APP_NAME USER_ID ("session_" +:+ uuid);
                    RunnerRun USER_ID ("session_" +:+ uuid)
                      (initial_message c x t);
                    GetSession APP_NAME USER_ID ("session_" +:+ uuid)];
          final_response_text := captured;
          error_message := None;
          final_state_dict := state s' |})
    ∧ result !! "session_id" = Some (VStr ("session_" +:+ uuid))
    ∧ result !! "final_state" = Some (VDict (state s'))
    ∧ result !! "final_response" = Some (extracted (state s') captured)
    ∧ result !! "error" = Some VNone.
Proof.
  intros Hc Hd Hg. rewrite (invoke_created _ _ _ _ _ _ _ Hc). unfold bind.
  rewrite (guarded_clean_found (created_frame σ1 ("session_" +:+ uuid))
             _ _ _ _ _ _ Hd Hg).
  match goal with
  | |- context [prepare_results ?sid ?fr] =>
      destruct (prepare_results_spec sid fr)
        as (result & -> & Hs & Hf & Hr & He)
  end.
  exists result. split; [reflexivity |]. by repeat split.
Qed.

Lemma invoke_clean_missing σ uuid c x t s σ1 captured σ2 σ3 :
  create_session service σ APP_NAME USER_ID ("session_" +:+ uuid)
    = (inr s, σ1) →
  drain (run runner σ1 USER_ID ("session_" +:+ uuid) (initial_message c x t))
    None = (None, captured, σ2) →
  get_session service σ2 APP_NAME USER_ID ("session_" +:+ uuid)
    = (inr None, σ3) →
  ∃ result,
    invoke service run σ uuid c x t =
      (inr result,
       {| store := σ3;
          calls := [CreateSession APP_NAME USER_ID ("session_" +:+ uuid);
                    RunnerRun USER_ID ("session_" +:+ uuid)
                      (initial_message c x t);
                    GetSession APP_NAME USER_ID ("session_" +:+ uuid)];
          final_response_text := captured;
          error_message := Some "Failed to retrieve final session state.";
          final_state_dict := ∅ |})
    ∧ result !! "session_id" = Some (VStr ("session_" +:+ uuid))
    ∧ result !! "final_state" = Some (VDict ∅)
    ∧ result !! "final_response" = Some (extracted ∅ captured)
    ∧ result !! "error"
        = Some (VStr "Failed to retrieve final session state.").
Proof.
  intros Hc Hd Hg. rewrite (invoke_created _ _ _ _ _ _ _ Hc). unfold bind.
  rewrite (guarded_clean_missing (created_frame σ1 ("session_" +:+ uuid))
             _ _ _ _ _ Hd Hg).
  match goal with
  | |- context [prepare_results ?sid ?fr] =>
      destruct (prepare_results_spec sid fr)
        as (result & -> & Hs & Hf & Hr & He)
  end.
  exists result. split; [reflexivity |]. by repeat split.
Qed.

(** C1 (amended).  Every invocation returns a dictionary and lets no
    exception escape, whatever the session service and the runner do.  The
    dictionary has the four keys [session_id], [final_state],
    [final_response] and [error] when the session was created; when
    [create_session] raised, it is the one-key dictionary
    [{"error": "Failed to create session: ..."}]. *)
Theorem run_comment_interaction_total σ uuid c x t :
  ∃ result fr,
    invoke service run σ uuid c x t = (inr result, fr)
    ∧ match (create_session service σ APP_NAME USER_ID
               ("session_" +:+ uuid)).1 with
      | inl e =>
          result =
            {[ "error" := VStr ("Failed to create session: " +:+ exn_str e) ]}
      | inr _ => ∀ k, k ∈ result_keys → is_Some (result !! k)
      end.
Proof.
  destruct (create_session service σ APP_NAME USER_ID ("session_" +:+ uuid))
    as [[e | s] σ1] eqn:Hc.
  - rewrite (invoke_refused _ _ _ _ _ _ _ Hc).
    eexists _, _. split; reflexivity.
  - rewrite (invoke_created _ _ _ _ _ _ _ Hc). unfold bind.
    destruct (guarded_returns (created_frame σ1 ("session_" +:+ uuid))
                ("session_" +:+ uuid) (initial_message c x t))
      as [fr' ->].
    destruct (prepare_results_spec ("session_" +:+ uuid) fr')
      as (result & -> & Hs & Hf & Hr & He).
    exists result, fr'. split; [reflexivity |].
    cbn. intros k Hk. unfold result_keys in Hk.
    repeat (apply elem_of_cons in Hk as [-> | Hk]); eauto.
    by apply elem_of_nil in Hk.
Qed.

(** C3 (amended).  In every result built after the session was created,
    [final_response] follows this precedence: the value the final state holds
    under [final_response] when that value is truthy; otherwise the text
    captured from the last final-response event when it is a non-empty
    string; otherwise whatever the state holds under the key, [None] when
    the key is absent. *)
Theorem final_response_precedence σ uuid c x t s σ1 :
  create_session service σ APP_NAME USER_ID ("session_" +:+ uuid)
    = (inr s, σ1) →
  ∃ result fr fsd,
    invoke service run σ uuid c x t = (inr result, fr)
    ∧ result !! "final_state" = Some (VDict fsd)
    ∧ (∀ v, fsd !! "final_response" = Some v → truthy v = true →
            result !! "final_response" = Some v)
    ∧ (∀ txt, truthy (dict_get fsd "final_response") = false →
              final_response_text fr = Some txt → txt ≠ "" →
              result !! "final_response" = Some (VStr txt))
    ∧ (final_response_text fr = None ∨ final_response_text fr = Some "" →
       result !! "final_response" = Some (dict_get fsd "final_response"))
    ∧ (fsd !! "final_response" = None → final_response_text fr = None →
       result !! "final_response" = Some VNone).
Proof.
  intros Hc. rewrite (invoke_created _ _ _ _ _ _ _ Hc). unfold bind.
  destruct (guarded_returns (created_frame σ1 ("session_" +:+ uuid))
              ("session_" +:+ uuid) (initial_message c x t))
    as [fr' ->].
  destruct (prepare_results_spec ("session_" +:+ uuid) fr')
    as (result & -> & Hs & Hf & Hr & He).
  exists result, fr', (final_state_dict fr').
  split; [reflexivity |]. split; [exact Hf |].
  rewrite Hr. unfold extracted, dict_get.
  repeat split.
  - intros v Hv Ht. rewrite Hv. cbn. rewrite Ht. reflexivity.
  - intros txt Hfalsy Htxt Hne. rewrite Hfalsy, Htxt. cbn.
    destruct (String.eqb_spec txt ""); [done | reflexivity].
  - intros [-> | ->]; cbn; by rewrite andb_false_r.
  - intros Hnone ->. rewrite Hnone. reflexivity.
Qed.

(** C4.  When the pipeline execution raises [e] (the runner faults or the
    event loop raises), the invocation reads the session exactly once, and
    the result's [error] is ["Agent execution failed: e"] whatever that
    read does: answer a session, answer none, or raise. *)
Theorem readback_keeps_original_error σ uuid c x t s σ1 e captured σ2 r σ3 :
  create_session service σ APP_NAME USER_ID ("session_" +:+ uuid)
    = (inr s, σ1) →
  drain (run runner σ1 USER_ID ("session_" +:+ uuid) (initial_message c x t))
    None = (Some e, captured, σ2) →
  get_session service σ2 APP_NAME USER_ID ("session_" +:+ uuid) = (r, σ3) →
  ∃ result fr,
    invoke service run σ uuid c x t = (inr result, fr)
    ∧ count_get_session (calls fr) = 1
    ∧ result !! "error"
        = Some (VStr ("Agent execution failed: " +:+ exn_str e))
    ∧ result !! "final_state"
        = Some (VDict match r with
                      | inr (Some s') => state s'
                      | _ => ∅
                      end).
Proof.
  intros Hc Hd Hg.
  destruct (invoke_raised _ _ _ _ _ _ _ _ _ _ _ _ Hc Hd Hg)
    as (result & Heq & _ & Hf & _ & He).
  eexists _, _. split; [exact Heq |].
  split; [reflexivity |]. split; [exact He | exact Hf].
Qed.

(** C5 (amended).  When the pipeline completes without raising, the
    session is read back, its state has no [final_response] key and no
    final-event text was captured, the result carries a null
    [final_response] and a null [error]. *)
Theorem extraction_miss_is_not_an_error σ uuid c x t s σ1 σ2 s' σ3 :
  create_session service σ APP_NAME USER_ID ("session_" +:+ uuid)
    = (inr s, σ1) →
  drain (run runner σ1 USER_ID ("session_" +:+ uuid) (initial_message c x t))
    None = (None, None, σ2) →
  get_session service σ2 APP_NAME USER_ID ("session_" +:+ uuid)
    = (inr (Some s'), σ3) →
  state s' !! "final_response" = None →
  ∃ result fr,
    invoke service run σ uuid c x t = (inr result, fr)
    ∧ result !! "final_response" = Some VNone
    ∧ result !! "error" = Some VNone.
Proof.
  intros Hc Hd Hg Hk.
  destruct (invoke_clean_found _ _ _ _ _ _ _ _ _ _ _ Hc Hd Hg)
    as (result & Heq & _ & _ & Hr & He).
  eexists _, _. split; [exact Heq |]. split; [| exact He].
  rewrite Hr. unfold extracted, dict_get. rewrite Hk. reflexivity.
Qed.

(** C9.  Extraction from the state treats a falsy value as absent.  When
    the pipeline completes, text [txt] was captured from a final event and
    the final state maps [final_response] to a falsy value [v], the
    result's [final_response] is [txt]: for every non-empty [txt], and, when
    [v] is the empty string, for every [txt]. *)
Theorem falsy_state_value_yields_to_event_text
    σ uuid c x t s σ1 txt σ2 s' σ3 v :
  create_session service σ APP_NAME USER_ID ("session_" +:+ uuid)
    = (inr s, σ1) →
  drain (run runner σ1 USER_ID ("session_" +:+ uuid) (initial_message c x t))
    None = (None, Some txt, σ2) →
  get_session service σ2 APP_NAME USER_ID ("session_" +:+ uuid)
    = (inr (Some s'), σ3) →
  state s' !! "final_response" = Some v →
  truthy v = false →
  txt ≠ "" ∨ v = VStr "" →
  ∃ result fr,
    invoke service run σ uuid c x t = (inr result, fr)
    ∧ result !! "final_state" = Some (VDict (state s'))
    ∧ result !! "final_response" = Some (VStr txt).
Proof.
  intros Hc Hd Hg Hk Hv Hor.
  destruct (invoke_clean_found _ _ _ _ _ _ _ _ _ _ _ Hc Hd Hg)
    as (result & Heq & _ & Hf & Hr & _).
  eexists _, _. split; [exact Heq |]. split; [exact Hf |].
  rewrite Hr. unfold extracted, dict_get. rewrite Hk. cbn. rewrite Hv.
  cbn. destruct (String.eqb_spec txt "") as [-> | Hne]; cbn.
  - destruct Hor as [? | ->]; [done | reflexivity].
  - reflexivity.
Qed.

(** C10.  When the run raises nothing but the read that follows answers
    no session, the result's [error] is the string
    ["Failed to retrieve final session state."] and [final_state] is the
    empty map. *)
Theorem missing_session_after_clean_run σ uuid c x t s σ1 captured σ2 σ3 :
  create_session service σ APP_NAME USER_ID ("session_" +:+ uuid)
    = (inr s, σ1) →
  drain (run runner σ1 USER_ID ("session_" +:+ uuid) (initial_message c x t))
    None = (None, captured, σ2) →
  get_session service σ2 APP_NAME USER_ID ("session_" +:+ uuid)
    = (inr None, σ3) →
  ∃ result fr,
    invoke service run σ uuid c x t = (inr result, fr)
    ∧ result !! "error"
        = Some (VStr "Failed to retrieve final session state.")
    ∧ result !! "final_state" = Some (VDict ∅).
Proof.
  intros Hc Hd Hg.
  destruct (invoke_clean_missing _ _ _ _ _ _ _ _ _ _ Hc Hd Hg)
    as (result & Heq & _ & Hf & _ & He).
  eexists _, _. split; [exact Heq |]. split; [exact He | exact Hf].
Qed.

End InteractionFacts.

(** ** The three-stage pipeline on the in-memory store *)

(** Finds which entry of an explicit list of stage runs a membership
    hypothesis designates; entries of another agent are discarded. *)
Ltac stage_of H :=
  repeat (apply elem_of_cons in H as [H | H]);
  [ first [ discriminate H | injection H as -> ] .. | by apply elem_of_nil in H ].

Section PipelineFacts.

Variable backend : Backend.

(** The event of a stage always has a first part with text. *)
Lemma first_part_text_stage_event a r :
  first_part_text (stage_event a r) = inr (Some (reply_text r)).
Proof. reflexivity. Qed.

(** The loop over a pipeline run ends where [stage_summary] says. *)
Lemma drain_run_stages key msg stages :
  ∀ w st captured,
    sessions w !! key = Some st →
    drain (run_stages backend key msg stages w) captured =
      let s := stage_summary backend msg stages st captured in
      (sm_error s, sm_captured s,
       {| sessions := <[key := sm_state s]> (sessions w);
          stage_calls := stage_calls w ++ sm_calls s |}).
Proof.
  induction stages as [| a rest IH]; intros w st captured Hst.
  - cbn. rewrite insert_id by done. rewrite app_nil_r.
    by destruct w.
  - cbn [run_stages stage_summary]. rewrite Hst.
    destruct (backend a {| in_state := st; in_message := msg |})
      as [x | r] eqn:Hb.
    + cbn. rewrite insert_id by done. reflexivity.
    + cbn [drain]. unfold is_final_response.
      rewrite first_part_text_stage_event. cbn [final_flag stage_event].
      set (st' := <[output_key a := VStr (reply_text r)]> st).
      set (w2 := {| sessions := <[key := st']> (sessions w);
                    stage_calls :=
                      stage_calls w
                      ++ [(a, {| in_state := st; in_message := msg |})] |}).
      assert (Hw2 : sessions w2 !! key = Some st')
        by (subst w2; cbn; apply lookup_insert_eq).
      destruct (reply_final r); rewrite (IH w2 st' _ Hw2); cbn;
        rewrite insert_insert_eq, <- app_assoc; reflexivity.
Qed.

(** An identifier already in the store: the session is refused and no
    stage runs. *)
Lemma pipeline_invoke_duplicate w uuid c x t st :
  sessions w !! session_key uuid = Some st →
  pipeline_invoke backend w uuid c x t =
    (inr {[ "error" :=
              VStr ("Failed to create session: "
                    +:+ ("DuplicateSessionError: " +:+ ("session_" +:+ uuid))) ]},
     created_frame w ("session_" +:+ uuid)).
Proof.
  intros Hk. unfold pipeline_invoke.
  apply (invoke_refused _ _ _ _ _ _ _
           (Exception ("DuplicateSessionError: " +:+ ("session_" +:+ uuid)))).
  change (create_session in_memory_service) with in_memory_create.
  unfold in_memory_create. fold (session_key uuid). rewrite Hk.
  reflexivity.
Qed.

(** A fresh identifier: the result is read off the summary of the run. *)
Lemma pipeline_invoke_fresh w uuid c x t :
  sessions w !! session_key uuid = None →
  let sm := stage_summary backend (initial_message c x t)
              (sub_agents comment_interaction_agent) ∅ None in
  ∃ result,
    pipeline_invoke backend w uuid c x t =
      (inr result,
       {| store := {| sessions := <[session_key uuid := sm_state sm]> (sessions w);
                      stage_calls := stage_calls w ++ sm_calls sm |};
          calls := [CreateSession APP_NAME USER_ID ("session_" +:+ uuid);
                    RunnerRun USER_ID ("session_" +:+ uuid)
                      (initial_message c x t);
                    GetSession APP_NAME USER_ID ("session_" +:+ uuid)];
          final_response_text := sm_captured sm;
          error_message :=
            (λ e, "Agent execution failed: " +:+ exn_str e) <$> sm_error sm;
          final_state_dict := sm_state sm |})
    ∧ result !! "session_id" = Some (VStr ("session_" +:+ uuid))
    ∧ result !! "final_state" = Some (VDict (sm_state sm))
    ∧ result !! "final_response"
        = Some (extracted (sm_state sm) (sm_captured sm))
    ∧ result !! "error"
        = Some (of_opt_str
                  ((λ e, "Agent execution failed: " +:+ exn_str e)
                     <$> sm_error sm)).
Proof.
  intros Hk sm. unfold pipeline_invoke.
  set (sid := "session_" +:+ uuid).
  set (w1 := {| sessions := <[session_key uuid := ∅]> (sessions w);
                stage_calls := stage_calls w |}).
  assert (Hc : create_session in_memory_service w APP_NAME USER_ID sid
               = (inr {| session_id_of := sid; state := ∅ |}, w1)).
  { change (create_session in_memory_service) with in_memory_create.
    unfold in_memory_create.
    change (APP_NAME, USER_ID, sid) with (session_key uuid). rewrite Hk.
    reflexivity. }
  rewrite (invoke_created _ _ _ _ _ _ _ _ _ Hc). unfold bind.
  set (w2 := {| sessions := <[session_key uuid := sm_state sm]> (sessions w);
                stage_calls := stage_calls w ++ sm_calls sm |}).
  assert (Hd : drain (pipeline_run backend
                        {| agent := comment_interaction_agent;
                           app_name := APP_NAME |}
                        w1 USER_ID sid (initial_message c x t)) None
               = (sm_error sm, sm_captured sm, w2)).
  { unfold pipeline_run. cbn [agent app_name].
    rewrite (drain_run_stages _ _ _ w1 ∅ None)
      by (subst w1; cbn; apply lookup_insert_eq).
    cbn zeta. subst w1 w2 sm. cbn [sessions stage_calls].
    change (APP_NAME, USER_ID, sid) with (session_key uuid).
    rewrite insert_insert_eq. reflexivity. }
  assert (Hg : get_session in_memory_service w2 APP_NAME USER_ID sid
               = (inr (Some {| session_id_of := sid;
                               state := sm_state sm |}), w2)).
  { change (get_session in_memory_service) with in_memory_get.
    unfold in_memory_get.
    change (APP_NAME, USER_ID, sid) with (session_key uuid). subst w2.
    cbn [sessions]. rewrite lookup_insert_eq. reflexivity. }
  subst sid.
  destruct (sm_error sm) as [e |] eqn:He.
  - rewrite (guarded_raised in_memory_service (pipeline_run backend)
               (created_frame w1 _) _ _ _ _ _ _ _ Hd Hg).
    match goal with
    | |- context [prepare_results ?s ?fr] =>
        destruct (prepare_results_spec s fr)
          as (result & -> & Hs & Hf & Hr & Herr)
    end.
    exists result. split; [reflexivity |]. by repeat split.
  - rewrite (guarded_clean_found in_memory_service (pipeline_run backend)
               (created_frame w1 _) _ _ _ _ _ _ Hd Hg).
    match goal with
    | |- context [prepare_results ?s ?fr] =>
        destruct (prepare_results_spec s fr)
          as (result & -> & Hs & Hf & Hr & Herr)
    end.
    exists result. split; [reflexivity |]. by repeat split.
Qed.

(** The summary of the three stages, by the answers of the backend. *)
Lemma three_stage_cases c x t :
  let msg := initial_message c x t in
  let sm := stage_summary backend msg
              (sub_agents comment_interaction_agent) ∅ None in
  match backend state_setup_agent (setup_input c x t) with
  | inl e =>
      sm = {| sm_calls := [(state_setup_agent, setup_input c x t)];
              sm_state := ∅; sm_error := Some e; sm_captured := None |}
  | inr r0 =>
      match backend comment_analyzer_agent (analyzer_input c x t r0) with
      | inl e =>
          sm = {| sm_calls := [(state_setup_agent, setup_input c x t);
                               (comment_analyzer_agent, analyzer_input c x t r0)];
                  sm_state := state_after_setup r0;
                  sm_error := Some e;
                  sm_captured := capture r0 None |}
      | inr r1 =>
          match backend comment_responder_agent (responder_input c x t r0 r1) with
          | inl e =>
              sm = {| sm_calls :=
                        [(state_setup_agent, setup_input c x t);
                         (comment_analyzer_agent, analyzer_input c x t r0);
                         (comment_responder_agent, responder_input c x t r0 r1)];
                      sm_state := state_after_analyzer r0 r1;
                      sm_error := Some e;
                      sm_captured := capture r1 (capture r0 None) |}
          | inr r2 =>
              sm = {| sm_calls :=
                        [(state_setup_agent, setup_input c x t);
                         (comment_analyzer_agent, analyzer_input c x t r0);
                         (comment_responder_agent, responder_input c x t r0 r1)];
                      sm_state :=
                        <["final_response" := VStr (reply_text r2)]>
                          (state_after_analyzer r0 r1);
                      sm_error := None;
                      sm_captured :=
                        capture r2 (capture r1 (capture r0 None)) |}
          end
      end
  end.
Proof.
  intros msg sm. subst sm msg.
  cbn [stage_summary sub_agents comment_interaction_agent].
  change {| in_state := ∅; in_message := initial_message c x t |}
    with (setup_input c x t).
  destruct (backend state_setup_agent (setup_input c x t)) as [e | r0];
    [reflexivity |].
  change {| in_state := <[output_key state_setup_agent := VStr (reply_text r0)]> ∅;
            in_message := initial_message c x t |}
    with (analyzer_input c x t r0).
  destruct (backend comment_analyzer_agent (analyzer_input c x t r0))
    as [e | r1]; [reflexivity |].
  change {| in_state :=
              <[output_key comment_analyzer_agent := VStr (reply_text r1)]>
                (<[output_key state_setup_agent := VStr (reply_text r0)]> ∅);
            in_message := initial_message c x t |}
    with (responder_input c x t r0 r1).
  destruct (backend comment_responder_agent (responder_input c x t r0 r1))
    as [e | r2]; reflexivity.
Qed.

(** The stage runs of the three stages, by the answers of the backend. *)
Lemma three_stage_trace c x t :
  sm_calls (stage_summary backend (initial_message c x t)
              (sub_agents comment_interaction_agent) ∅ None)
  = (state_setup_agent, setup_input c x t)
    :: match backend state_setup_agent (setup_input c x t) with
       | inl _ => []
       | inr r0 =>
           (comment_analyzer_agent, analyzer_input c x t r0)
           :: match backend comment_analyzer_agent
                      (analyzer_input c x t r0) with
              | inl _ => []
              | inr r1 =>
                  [(comment_responder_agent, responder_input c x t r0 r1)]
              end
       end.
Proof.
  pose proof (three_stage_cases c x t) as Hsm. cbn zeta in Hsm.
  destruct (backend state_setup_agent (setup_input c x t)) as [e0 | r0];
    [| destruct (backend comment_analyzer_agent (analyzer_input c x t r0))
         as [e1 | r1];
       [| destruct (backend comment_responder_agent
                      (responder_input c x t r0 r1)) as [e2 | r2] ] ];
    by rewrite Hsm.
Qed.

(** The stage runs of an invocation. *)
Lemma pipeline_stage_calls ss uuid c x t :
  stage_calls
    (store (pipeline_invoke backend {| sessions := ss; stage_calls := [] |}
              uuid c x t).2)
  = match ss !! session_key uuid with
    | Some _ => []
    | None =>
        sm_calls (stage_summary backend (initial_message c x t)
                    (sub_agents comment_interaction_agent) ∅ None)
    end.
Proof.
  destruct (ss !! session_key uuid) as [st |] eqn:Hk.
  - by rewrite (pipeline_invoke_duplicate
                  {| sessions := ss; stage_calls := [] |} uuid c x t st Hk).
  - by destruct (pipeline_invoke_fresh
                   {| sessions := ss; stage_calls := [] |} uuid c x t Hk)
      as (result & -> & _).
Qed.

(** C6.  In every invocation whose session is created the stages execute
    in the fixed order: Setup runs first, on the empty state; the Analyzer
    runs next exactly when Setup answered, on the state holding the Setup
    output under [initial_data]; the Responder runs last exactly when the
    Analyzer answered too, on the state holding both outputs under
    [initial_data] and [analysis]; nothing else runs, and nothing runs when
    the session is refused.  So the stages run are an initial segment of
    Setup, Analyzer, Responder, and whenever a later stage runs its input
    state holds the outputs of the earlier ones. *)
Theorem stages_run_in_order ss uuid c x t :
  let out := pipeline_invoke backend {| sessions := ss; stage_calls := [] |}
               uuid c x t in
  let msg := initial_message c x t in
  stage_calls (store out.2)
  = match ss !! session_key uuid with
    | Some _ => []
    | None =>
        (state_setup_agent, {| in_state := ∅; in_message := msg |})
        :: match backend state_setup_agent
                   {| in_state := ∅; in_message := msg |} with
           | inl _ => []
           | inr r0 =>
               (comment_analyzer_agent,
                {| in_state := <["initial_data" := VStr (reply_text r0)]> ∅;
                   in_message := msg |})
               :: match backend comment_analyzer_agent
                          {| in_state :=
                               <["initial_data" := VStr (reply_text r0)]> ∅;
                             in_message := msg |} with
                  | inl _ => []
                  | inr r1 =>
                      [(comment_responder_agent,
                        {| in_state :=
                             <["analysis" := VStr (reply_text r1)]>
                               (<["initial_data" := VStr (reply_text r0)]> ∅);
                           in_message := msg |})]
                  end
           end
    end
  ∧ stages_run (store out.2) `prefix_of` sub_agents comment_interaction_agent
  ∧ (∀ inp, (comment_analyzer_agent, inp) ∈ stage_calls (store out.2) →
       ∃ r0, backend state_setup_agent (setup_input c x t) = inr r0
             ∧ in_state inp !! "initial_data" = Some (VStr (reply_text r0)))
  ∧ (∀ inp, (comment_responder_agent, inp) ∈ stage_calls (store out.2) →
       ∃ r0 r1,
         backend state_setup_agent (setup_input c x t) = inr r0
         ∧ backend comment_analyzer_agent (analyzer_input c x t r0) = inr r1
         ∧ in_state inp !! "initial_data" = Some (VStr (reply_text r0))
         ∧ in_state inp !! "analysis" = Some (VStr (reply_text r1))).
Proof.
  intros out msg. subst out msg. split.
  { rewrite pipeline_stage_calls.
    destruct (ss !! session_key uuid); [reflexivity |].
    apply three_stage_trace. }
  destruct (ss !! session_key uuid) as [st |] eqn:Hk.
  - rewrite (pipeline_invoke_duplicate
               {| sessions := ss; stage_calls := [] |} uuid c x t st Hk).
    cbn. repeat split.
    + apply prefix_nil.
    + intros inp Hin. by apply elem_of_nil in Hin.
    + intros inp Hin. by apply elem_of_nil in Hin.
  - destruct (pipeline_invoke_fresh
                {| sessions := ss; stage_calls := [] |} uuid c x t Hk)
      as (result & -> & _).
    cbn [snd store stage_calls app]. unfold stages_run.
    pose proof (three_stage_cases c x t) as Hsm. cbn zeta in Hsm.
    destruct (backend state_setup_agent (setup_input c x t))
      as [e0 | r0] eqn:H0;
      [| destruct (backend comment_analyzer_agent (analyzer_input c x t r0))
           as [e1 | r1] eqn:H1;
         [| destruct (backend comment_responder_agent
                        (responder_input c x t r0 r1)) as [e2 | r2] eqn:H2 ] ];
      rewrite Hsm; cbn; (split; [| split]).
    all: try (intros inp Hin; stage_of Hin).
    + by exists [comment_analyzer_agent; comment_responder_agent].
    + by exists [comment_responder_agent].
    + by exists r0.
    + by exists [].
    + by exists r0.
    + by exists r0, r1.
    + by exists [].
    + by exists r0.
    + by exists r0, r1.
Qed.

(** C7 (amended).  In every invocation in which the Analyzer stage fails,
    the Responder stage does not run, [final_state] is the state holding
    the Setup output under [initial_data], and [final_response] is null
    unless the Setup event reported itself as a final response with a
    non-empty text, in which case [final_response] is that text. *)
Theorem analyzer_failure_halts ss uuid c x t inp e :
  let out := pipeline_invoke backend {| sessions := ss; stage_calls := [] |}
               uuid c x t in
  (comment_analyzer_agent, inp) ∈ stage_calls (store out.2) →
  backend comment_analyzer_agent inp = inl e →
  ∃ result r0,
    out.1 = inr result
    ∧ backend state_setup_agent (setup_input c x t) = inr r0
    ∧ (comment_responder_agent ∉ stages_run (store out.2))
    ∧ result !! "final_state" = Some (VDict (state_after_setup r0))
    ∧ result !! "final_response"
        = Some (if reply_final r0 && negb (String.eqb (reply_text r0) "")
                then VStr (reply_text r0)
                else VNone).
Proof.
  intros out. subst out.
  destruct (ss !! session_key uuid) as [st |] eqn:Hk.
  - rewrite (pipeline_invoke_duplicate
               {| sessions := ss; stage_calls := [] |} uuid c x t st Hk).
    cbn. intros Hin. by apply elem_of_nil in Hin.
  - destruct (pipeline_invoke_fresh
                {| sessions := ss; stage_calls := [] |} uuid c x t Hk)
      as (result & -> & _ & Hfs & Hfr & Herr).
    cbn [fst snd store stage_calls app]. unfold stages_run.
    pose proof (three_stage_cases c x t) as Hsm. cbn zeta in Hsm.
    destruct (backend state_setup_agent (setup_input c x t))
      as [e0 | r0] eqn:H0;
      [| destruct (backend comment_analyzer_agent (analyzer_input c x t r0))
           as [e1 | r1] eqn:H1;
         [| destruct (backend comment_responder_agent
                        (responder_input c x t r0 r1)) as [e2 | r2] eqn:H2 ] ];
      rewrite Hsm in *; cbn; intros Hin Hfail; stage_of Hin;
      try congruence.
    assert (e1 = e) as -> by congruence.
    exists result, r0. split; [reflexivity |]. split; [reflexivity |].
    split.
    { intros Hin. stage_of Hin. }
    split; [exact Hfs |].
    rewrite Hfr. cbn. unfold extracted, capture, dict_get, state_after_setup.
    rewrite lookup_insert_ne by done. rewrite lookup_empty. cbn.
    destruct (reply_final r0); reflexivity.
Qed.

(** C2 (amended).  In every invocation the seed (comment, context, tone)
    is serialised by [json.dumps] into one JSON object and handed to the
    runner as the text of the user message.  When the session is created,
    the runner is called once with that message, the Setup stage runs
    first, on the empty state container and with the seed in the message;
    [initial_data] is written when Setup completes: if Setup answers, the
    next stage starts from the state holding that answer under
    [initial_data] and the final state holds it there; if Setup fails, the
    final state is empty.  When the session is refused, neither the runner
    nor any stage is called.  A value found under [initial_data] in the
    final state is always the output of the Setup stage. *)
Theorem seed_travels_in_the_message ss uuid c x t :
  let out := pipeline_invoke backend {| sessions := ss; stage_calls := [] |}
               uuid c x t in
  let seed := Json.dumps [("comment", c); ("context", x); ("tone", t)] in
  let message := {| role := "user";
                    parts := Some [ {| text := Some seed |} ] |} in
  let sid := "session_" +:+ uuid in
  match ss !! session_key uuid with
  | Some _ =>
      calls out.2 = [CreateSession APP_NAME USER_ID sid]
      ∧ stage_calls (store out.2) = []
  | None =>
      calls out.2 = [CreateSession APP_NAME USER_ID sid;
                     RunnerRun USER_ID sid message;
                     GetSession APP_NAME USER_ID sid]
      ∧ head (stage_calls (store out.2))
        = Some (state_setup_agent, {| in_state := ∅; in_message := message |})
      ∧ ∃ result fsd,
          out.1 = inr result
          ∧ result !! "final_state" = Some (VDict fsd)
          ∧ match backend state_setup_agent
                    {| in_state := ∅; in_message := message |} with
            | inl _ => fsd = ∅
            | inr r0 =>
                fsd !! "initial_data" = Some (VStr (reply_text r0))
                ∧ stage_calls (store out.2) !! 1
                  = Some (comment_analyzer_agent,
                          {| in_state :=
                               <["initial_data" := VStr (reply_text r0)]> ∅;
                             in_message := message |})
            end
  end
  ∧ (∀ user sid' msg, RunnerRun user sid' msg ∈ calls out.2 → msg = message)
  ∧ (∀ inp, (state_setup_agent, inp) ∈ stage_calls (store out.2) →
       in_state inp = ∅ ∧ in_message inp = message)
  ∧ (∀ result fsd v,
       out.1 = inr result →
       result !! "final_state" = Some (VDict fsd) →
       fsd !! "initial_data" = Some v →
       ∃ r0, backend state_setup_agent (setup_input c x t) = inr r0
             ∧ v = VStr (reply_text r0)).
Proof.
  intros out seed message sid. subst out seed message sid.
  destruct (ss !! session_key uuid) as [st |] eqn:Hk.
  - rewrite (pipeline_invoke_duplicate
               {| sessions := ss; stage_calls := [] |} uuid c x t st Hk).
    cbn [fst snd store stage_calls calls created_frame].
    split; [by split |].
    split; [| split].
    + intros user sid msg Hin.
      repeat (apply elem_of_cons in Hin as [Hin | Hin]);
        try discriminate Hin.
      by apply elem_of_nil in Hin.
    + intros inp Hin. by apply elem_of_nil in Hin.
    + intros result fsd v [= <-] Hfs. by simplify_map_eq.
  - destruct (pipeline_invoke_fresh
                {| sessions := ss; stage_calls := [] |} uuid c x t Hk)
      as (result & -> & _ & Hfs & _).
    cbn [fst snd store stage_calls calls app].
    pose proof (three_stage_cases c x t) as Hsm. cbn zeta in Hsm.
    split.
    { split; [reflexivity |].
      rewrite three_stage_trace. split; [reflexivity |].
      eexists result, _. split; [reflexivity |]. split; [exact Hfs |].
      change {| in_state := ∅;
                in_message :=
                  {| role := "user";
                     parts :=
                       Some [ {| text :=
                                   Some (Json.dumps [("comment", c);
                                                     ("context", x);
                                                     ("tone", t)]) |} ] |} |}
        with (setup_input c x t).
      destruct (backend state_setup_agent (setup_input c x t))
        as [e0 | r0] eqn:H0;
        [| destruct (backend comment_analyzer_agent (analyzer_input c x t r0))
             as [e1 | r1] eqn:H1;
           [| destruct (backend comment_responder_agent
                          (responder_input c x t r0 r1))
                as [e2 | r2] eqn:H2 ] ];
        rewrite Hsm; cbn [sm_state];
        unfold state_after_analyzer, state_after_setup;
        [reflexivity | split; [| reflexivity] ..].
      - apply lookup_insert_eq.
      - rewrite lookup_insert_ne by done. apply lookup_insert_eq.
      - do 2 (rewrite lookup_insert_ne by done). apply lookup_insert_eq. }
    split; [| split].
    + intros user sid msg Hin.
      repeat (apply elem_of_cons in Hin as [Hin | Hin]);
        try discriminate Hin.
      * by injection Hin as -> -> ->.
      * by apply elem_of_nil in Hin.
    + intros inp Hin.
      destruct (backend state_setup_agent (setup_input c x t))
        as [e0 | r0] eqn:H0;
        [| destruct (backend comment_analyzer_agent (analyzer_input c x t r0))
             as [e1 | r1] eqn:H1;
           [| destruct (backend comment_responder_agent
                          (responder_input c x t r0 r1))
                as [e2 | r2] eqn:H2 ] ];
        rewrite Hsm in Hin; cbn in Hin; stage_of Hin; by split.
    + intros result' fsd v [= <-] Hfs' Hv.
      rewrite Hfs in Hfs'. clear Hfs.
      destruct (backend state_setup_agent (setup_input c x t))
        as [e0 | r0] eqn:H0;
        [| destruct (backend comment_analyzer_agent (analyzer_input c x t r0))
             as [e1 | r1] eqn:H1;
           [| destruct (backend comment_responder_agent
                          (responder_input c x t r0 r1))
                as [e2 | r2] eqn:H2 ] ];
        rewrite Hsm in Hfs'; cbn [sm_state] in Hfs';
        injection Hfs' as <-;
        unfold state_after_analyzer, state_after_setup in Hv;
        simplify_map_eq; by eexists.
Qed.

End PipelineFacts.

(** ** Concrete runs *)
Section ConcreteRuns.

Import Examples.

(** Replaces a backend call by its answer in the case analysis of
    [three_stage_cases]. *)
Ltac answer H Hsm := rewrite H in Hsm; cbv beta iota in Hsm.

(** The seed of the running example, as [json.dumps] prints it. *)
Example seed_of_the_example :
  Json.dumps [("comment", comment); ("context", context); ("tone", tone)]
  = "{" +:+ Json.quote +:+ "comment" +:+ Json.quote +:+ ": "
        +:+ Json.quote +:+ "Great post!" +:+ Json.quote +:+ ", "
        +:+ Json.quote +:+ "context" +:+ Json.quote +:+ ": "
        +:+ Json.quote +:+ "Post about X" +:+ Json.quote +:+ ", "
        +:+ Json.quote +:+ "tone" +:+ Json.quote +:+ ": "
        +:+ Json.quote +:+ "happy" +:+ Json.quote +:+ "}".
Proof. reflexivity. Qed.

(** The replies of the backends of the examples. *)
Definition setup_reply : StageReply :=
  {| reply_text := setup_text; reply_final := true |}.
Definition analyzer_reply : StageReply :=
  {| reply_text := "positive"; reply_final := true |}.
Definition responder_reply : StageReply :=
  {| reply_text := "Thanks a lot!"; reply_final := true |}.

(** The trace of the run in which every stage succeeds. *)
Lemma good_backend_summary :
  stage_summary good_backend (initial_message comment context tone)
    (sub_agents comment_interaction_agent) ∅ None
  = {| sm_calls :=
         [(state_setup_agent, setup_input comment context tone);
          (comment_analyzer_agent,
           analyzer_input comment context tone setup_reply);
          (comment_responder_agent,
           responder_input comment context tone setup_reply analyzer_reply)];
       sm_state :=
         <["final_response" := VStr "Thanks a lot!"]>
           (state_after_analyzer setup_reply analyzer_reply);
       sm_error := None;
       sm_captured := Some "Thanks a lot!" |}.
Proof.
  pose proof (three_stage_cases good_backend comment context tone) as Hsm.
  cbv zeta in Hsm.
  assert (H0 : good_backend state_setup_agent
                 (setup_input comment context tone) = inr setup_reply)
    by reflexivity.
  assert (H1 : good_backend comment_analyzer_agent
                 (analyzer_input comment context tone setup_reply)
               = inr analyzer_reply) by reflexivity.
  assert (H2 : good_backend comment_responder_agent
                 (responder_input comment context tone setup_reply
                    analyzer_reply)
               = inr responder_reply) by reflexivity.
  answer H0 Hsm. answer H1 Hsm. answer H2 Hsm. exact Hsm.
Qed.

(** The trace of the run in which the Analyzer times out. *)
Lemma analyzer_down_summary :
  stage_summary analyzer_down (initial_message comment context tone)
    (sub_agents comment_interaction_agent) ∅ None
  = {| sm_calls :=
         [(state_setup_agent, setup_input comment context tone);
          (comment_analyzer_agent,
           analyzer_input comment context tone setup_reply)];
       sm_state := state_after_setup setup_reply;
       sm_error := Some (Exception "backend timeout");
       sm_captured := Some setup_text |}.
Proof.
  pose proof (three_stage_cases analyzer_down comment context tone) as Hsm.
  cbv zeta in Hsm.
  assert (H0 : analyzer_down state_setup_agent
                 (setup_input comment context tone) = inr setup_reply)
    by reflexivity.
  assert (H1 : analyzer_down comment_analyzer_agent
                 (analyzer_input comment context tone setup_reply)
               = inl (Exception "backend timeout")) by reflexivity.
  answer H0 Hsm. answer H1 Hsm. exact Hsm.
Qed.

(** Scenario 1 of the specification: the three stages succeed. *)
Example all_stages_succeed :
  let out := pipeline_invoke good_backend empty_world uuid comment context tone in
  ∃ result,
    out.1 = inr result
    ∧ result !! "session_id" = Some (VStr sid)
    ∧ result !! "final_response" = Some (VStr "Thanks a lot!")
    ∧ result !! "error" = Some VNone
    ∧ stages_run (store out.2)
      = [state_setup_agent; comment_analyzer_agent; comment_responder_agent].
Proof.
  cbv zeta.
  destruct (pipeline_invoke_fresh good_backend empty_world uuid
              comment context tone (lookup_empty _))
    as (result & -> & Hs & _ & Hr & He).
  rewrite good_backend_summary in *. cbn [sm_state sm_captured sm_error] in *.
  exists result. split; [reflexivity |]. split; [exact Hs |].
  split; [rewrite Hr; vm_compute; reflexivity |].
  split; [exact He | reflexivity].
Qed.

(** C1, counterexample.  When [create_session] raises, the dictionary
    returned has the key [error] and none of [session_id], [final_state],
    [final_response]. *)
Lemma refused_session_result_has_one_key :
  ∃ result fr,
    invoke broken_service (quiet_run []) tt uuid comment context tone
      = (inr result, fr)
    ∧ result !! "error"
        = Some (VStr "Failed to create session: store offline")
    ∧ result !! "session_id" = None
    ∧ result !! "final_state" = None
    ∧ result !! "final_response" = None
    ∧ ¬ (∀ k, k ∈ result_keys → is_Some (result !! k)).
Proof.
  eexists _, _. split.
  { apply (invoke_refused broken_service (quiet_run []) tt uuid
             comment context tone (Exception "store offline") tt).
    reflexivity. }
  split; [by rewrite lookup_singleton_eq |].
  do 3 (split; [by rewrite lookup_singleton_ne |]).
  intros Hall. destruct (Hall "session_id") as [v Hv].
  - unfold result_keys. by left.
  - by rewrite lookup_singleton_ne in Hv.
Qed.

(** C2, counterexample.  In the run where every stage succeeds, the state
    the Setup stage is given is empty: nothing was written under
    [initial_data], or under any key, before the stage ran; the key appears
    in the final state with the Setup output as value. *)
Lemma setup_starts_from_an_empty_state :
  let out := pipeline_invoke good_backend empty_world uuid comment context tone in
  ∃ inp result fsd,
    head (stage_calls (store out.2)) = Some (state_setup_agent, inp)
    ∧ in_state inp !! "initial_data" = None
    ∧ in_state inp = ∅
    ∧ out.1 = inr result
    ∧ result !! "final_state" = Some (VDict fsd)
    ∧ fsd !! "initial_data" = Some (VStr setup_text).
Proof.
  cbv zeta.
  destruct (pipeline_invoke_fresh good_backend empty_world uuid
              comment context tone (lookup_empty _))
    as (result & -> & _ & Hfs & _).
  rewrite good_backend_summary in *. cbn [sm_state sm_calls] in *.
  eexists (setup_input comment context tone), result, _.
  split; [reflexivity |]. split; [apply lookup_empty |].
  split; [reflexivity |]. split; [reflexivity |]. split; [exact Hfs |].
  unfold state_after_analyzer, state_after_setup.
  do 2 (rewrite lookup_insert_ne by done). apply lookup_insert_eq.
Qed.

(** C3, counterexample.  The final state contains the key
    [final_response], with the empty string as value, and a final event
    carried text: the result's [final_response] is the event text, not the
    value of the state. *)
Lemma empty_state_value_is_overridden :
  ∃ result fr fsd,
    invoke (fixed_service {[ "final_response" := VStr "" ]})
      (quiet_run [text_event "CommentResponder" "Thanks a lot!"])
      tt uuid comment context tone = (inr result, fr)
    ∧ result !! "final_state" = Some (VDict fsd)
    ∧ fsd !! "final_response" = Some (VStr "")
    ∧ result !! "final_response" = Some (VStr "Thanks a lot!")
    ∧ result !! "final_response" ≠ fsd !! "final_response".
Proof.
  destruct (invoke_clean_found
              (fixed_service {[ "final_response" := VStr "" ]})
              (quiet_run [text_event "CommentResponder" "Thanks a lot!"])
              tt uuid comment context tone
              {| session_id_of := sid; state := ∅ |} tt
              (Some "Thanks a lot!") tt
              {| session_id_of := sid;
                 state := {[ "final_response" := VStr "" ]} |} tt
              eq_refl eq_refl eq_refl)
    as (result & Heq & _ & Hf & Hr & _).
  cbn [state] in Hf, Hr.
  assert (Hx : extracted {[ "final_response" := VStr "" ]}
                 (Some "Thanks a lot!") = VStr "Thanks a lot!")
    by (vm_compute; reflexivity).
  rewrite Hx in Hr.
  eexists result, _, _. split; [exact Heq |]. split; [exact Hf |].
  rewrite Hr, lookup_singleton_eq. by repeat split.
Qed.

(** C3 (amended), witness. *)
Lemma final_response_precedence_witness :
  ∃ result fr fsd,
    invoke (fixed_service {[ "final_response" := VStr "" ]})
      (quiet_run [text_event "CommentResponder" "Thanks a lot!"])
      tt uuid comment context tone = (inr result, fr)
    ∧ result !! "final_state" = Some (VDict fsd)
    ∧ (∀ v, fsd !! "final_response" = Some v → truthy v = true →
            result !! "final_response" = Some v)
    ∧ (∀ txt, truthy (dict_get fsd "final_response") = false →
              final_response_text fr = Some txt → txt ≠ "" →
              result !! "final_response" = Some (VStr txt))
    ∧ (final_response_text fr = None ∨ final_response_text fr = Some "" →
       result !! "final_response" = Some (dict_get fsd "final_response"))
    ∧ (fsd !! "final_response" = None → final_response_text fr = None →
       result !! "final_response" = Some VNone).
Proof.
  apply (final_response_precedence
           (fixed_service {[ "final_response" := VStr "" ]})
           (quiet_run [text_event "CommentResponder" "Thanks a lot!"])
           tt uuid comment context tone
           {| session_id_of := sid; state := ∅ |} tt).
  reflexivity.
Defined.

(** C4, witness: the runner times out and the read-back raises too. *)
Lemma readback_keeps_original_error_witness :
  ∃ result fr,
    invoke (write_only_service false)
      (failing_run [] (Exception "backend timeout"))
      tt uuid comment context tone = (inr result, fr)
    ∧ count_get_session (calls fr) = 1
    ∧ result !! "error"
        = Some (VStr ("Agent execution failed: "
                      +:+ exn_str (Exception "backend timeout")))
    ∧ result !! "final_state"
        = Some (VDict match @inl Exn (option Session)
                              (Exception "store offline") with
                      | inr (Some s') => state s'
                      | _ => ∅
                      end).
Proof.
  apply (readback_keeps_original_error (write_only_service false)
           (failing_run [] (Exception "backend timeout"))
           tt uuid comment context tone
           {| session_id_of := sid; state := ∅ |} tt
           (Exception "backend timeout") None tt
           (inl (Exception "store offline")) tt);
    reflexivity.
Defined.

(** C5, counterexample.  The pipeline completes without raising, no event
    text is captured and the final state of the result has no
    [final_response] key, yet [error] is not null: the read after the run
    answered no session. *)
Lemma clean_run_without_session_has_an_error :
  ∃ result fr fsd,
    invoke (write_only_service true) (quiet_run []) tt uuid comment context tone
      = (inr result, fr)
    ∧ drain (quiet_run []
               {| agent := comment_interaction_agent; app_name := APP_NAME |}
               tt USER_ID sid (initial_message comment context tone)) None
      = (None, None, tt)
    ∧ final_response_text fr = None
    ∧ result !! "final_state" = Some (VDict fsd)
    ∧ fsd !! "final_response" = None
    ∧ result !! "final_response" = Some VNone
    ∧ result !! "error"
        = Some (VStr "Failed to retrieve final session state.")
    ∧ result !! "error" ≠ Some VNone.
Proof.
  destruct (invoke_clean_missing (write_only_service true) (quiet_run [])
              tt uuid comment context tone
              {| session_id_of := sid; state := ∅ |} tt None tt tt
              eq_refl eq_refl eq_refl)
    as (result & Heq & _ & Hf & Hr & He).
  eexists result, _, ∅. split; [exact Heq |].
  split; [reflexivity |]. split; [reflexivity |]. split; [exact Hf |].
  split; [apply lookup_empty |].
  assert (Hx : extracted ∅ None = VNone) by (vm_compute; reflexivity).
  rewrite Hx in Hr. split; [exact Hr |]. split; [exact He |].
  rewrite He. discriminate.
Qed.

(** C5 (amended), witness: a clean run that left nothing under
    [final_response]. *)
Lemma extraction_miss_is_not_an_error_witness :
  ∃ result fr,
    invoke (fixed_service {[ "initial_data" := VStr setup_text ]})
      (quiet_run []) tt uuid comment context tone = (inr result, fr)
    ∧ result !! "final_response" = Some VNone
    ∧ result !! "error" = Some VNone.
Proof.
  apply (extraction_miss_is_not_an_error
           (fixed_service {[ "initial_data" := VStr setup_text ]})
           (quiet_run []) tt uuid comment context tone
           {| session_id_of := sid; state := ∅ |} tt tt
           {| session_id_of := sid;
              state := {[ "initial_data" := VStr setup_text ]} |} tt);
    first [ reflexivity | vm_compute; reflexivity ].
Defined.

(** C9, witness: the state holds the empty string, the event a text. *)
Lemma falsy_state_value_yields_to_event_text_witness :
  ∃ result fr,
    invoke (fixed_service {[ "final_response" := VStr "" ]})
      (quiet_run [text_event "CommentResponder" "Thanks a lot!"])
      tt uuid comment context tone = (inr result, fr)
    ∧ result !! "final_state"
        = Some (VDict (state {| session_id_of := sid;
                                state := {[ "final_response" := VStr "" ]} |}))
    ∧ result !! "final_response" = Some (VStr "Thanks a lot!").
Proof.
  apply (falsy_state_value_yields_to_event_text
           (fixed_service {[ "final_response" := VStr "" ]})
           (quiet_run [text_event "CommentResponder" "Thanks a lot!"])
           tt uuid comment context tone
           {| session_id_of := sid; state := ∅ |} tt "Thanks a lot!" tt
           {| session_id_of := sid;
              state := {[ "final_response" := VStr "" ]} |}
           tt (VStr ""));
    first [ reflexivity | vm_compute; reflexivity | right; reflexivity ].
Defined.

(** C10, witness: a clean run whose session cannot be found afterwards. *)
Lemma missing_session_after_clean_run_witness :
  ∃ result fr,
    invoke (write_only_service true)
      (quiet_run [text_event "CommentResponder" "Thanks a lot!"])
      tt uuid comment context tone = (inr result, fr)
    ∧ result !! "error"
        = Some (VStr "Failed to retrieve final session state.")
    ∧ result !! "final_state" = Some (VDict ∅).
Proof.
  apply (missing_session_after_clean_run (write_only_service true)
           (quiet_run [text_event "CommentResponder" "Thanks a lot!"])
           tt uuid comment context tone
           {| session_id_of := sid; state := ∅ |} tt
           (Some "Thanks a lot!") tt tt);
    reflexivity.
Defined.

(** C7, counterexample.  The Analyzer fails after the Setup stage emitted
    a final-response event: the Responder does not run, the error is
    reported, and [final_response] is the Setup text, not null. *)
Lemma analyzer_failure_leaves_setup_text :
  let out := pipeline_invoke analyzer_down empty_world uuid comment context tone in
  ∃ result inp,
    out.1 = inr result
    ∧ (comment_analyzer_agent, inp) ∈ stage_calls (store out.2)
    ∧ analyzer_down comment_analyzer_agent inp
        = inl (Exception "backend timeout")
    ∧ stages_run (store out.2) = [state_setup_agent; comment_analyzer_agent]
    ∧ result !! "error"
        = Some (VStr "Agent execution failed: backend timeout")
    ∧ result !! "final_response" = Some (VStr setup_text)
    ∧ result !! "final_response" ≠ Some VNone.
Proof.
  cbv zeta.
  destruct (pipeline_invoke_fresh analyzer_down empty_world uuid
              comment context tone (lookup_empty _))
    as (result & -> & _ & _ & Hr & He).
  rewrite analyzer_down_summary in *.
  cbn [sm_state sm_calls sm_captured sm_error] in *.
  assert (Hx : extracted (state_after_setup setup_reply) (Some setup_text)
               = VStr setup_text) by (vm_compute; reflexivity).
  rewrite Hx in Hr.
  exists result, (analyzer_input comment context tone setup_reply).
  split; [reflexivity |].
  split; [cbn [snd store stage_calls app]; right; left |].
  split; [reflexivity |]. split; [reflexivity |]. split; [exact He |].
  rewrite Hr. by split.
Qed.

(** C7 (amended), witness. *)
Lemma analyzer_failure_halts_witness :
  let out := pipeline_invoke analyzer_down empty_world uuid comment context tone in
  ∃ result r0,
    out.1 = inr result
    ∧ analyzer_down state_setup_agent (setup_input comment context tone)
        = inr r0
    ∧ (comment_responder_agent ∉ stages_run (store out.2))
    ∧ result !! "final_state" = Some (VDict (state_after_setup r0))
    ∧ result !! "final_response"
        = Some (if reply_final r0 && negb (String.eqb (reply_text r0) "")
                then VStr (reply_text r0)
                else VNone).
Proof.
  apply (analyzer_failure_halts analyzer_down ∅ uuid comment context tone
           (analyzer_input comment context tone setup_reply)
           (Exception "backend timeout")).
  - vm_compute. right; left.
  - reflexivity.
Defined.

End ConcreteRuns.

(** * Further properties of the runner *)
Section RunnerProtocol.

Context {Σ : Type}.
Variable service : SessionService Σ.
Variable run : Runner → Σ → string → string → Content → EventStream Σ.

Let runner : Runner :=
  {| agent := comment_interaction_agent; app_name := APP_NAME |}.

(** The fourth shape of a full result: the read of line 106 raised. *)
Lemma invoke_clean_unreadable σ uuid c x t s σ1 captured σ2 e σ3 r σ4 :
  create_session service σ APP_NAME USER_ID ("session_" +:+ uuid)
    = (inr s, σ1) →
  drain (run runner σ1 USER_ID ("session_" +:+ uuid) (initial_message c x t))
    None = (None, captured, σ2) →
  get_session service σ2 APP_NAME USER_ID ("session_" +:+ uuid)
    = (inl e, σ3) →
  get_session service σ3 APP_NAME USER_ID ("session_" +:+ uuid) = (r, σ4) →
  let fsd := match r with inr (Some s') => state s' | _ => ∅ end in
  ∃ result,
    invoke service run σ uuid c x t =
      (inr result,
       {| store := σ4;
          calls := [CreateSession APP_NAME USER_ID ("session_" +:+ uuid);
                    RunnerRun USER_ID ("session_" +:+ uuid)
                      (initial_message c x t);
                    GetSession APP_NAME USER_ID ("session_" +:+ uuid);
                    GetSession APP_NAME USER_ID ("session_" +:+ uuid)];
          final_response_text := captured;
          error_message := Some ("Agent execution failed: " +:+ exn_str e);
          final_state_dict := fsd |})
    ∧ result !! "session_id" = Some (VStr ("session_" +:+ uuid))
    ∧ result !! "final_state" = Some (VDict fsd)
    ∧ result !! "final_response" = Some (extracted fsd captured)
    ∧ result !! "error"
        = Some (VStr ("Agent execution failed: " +:+ exn_str e)).
Proof.
  intros Hc Hd Hg Hg' fsd.
  rewrite (invoke_created _ _ _ _ _ _ _ _ _ Hc). unfold bind.
  rewrite (guarded_clean_unreadable service run
             (created_frame σ1 ("session_" +:+ uuid))
             _ _ _ _ _ _ _ _ Hd Hg Hg').
  match goal with
  | |- context [prepare_results ?sid ?fr] =>
      destruct (prepare_results_spec sid fr)
        as (result & -> & Hs & Hf & Hr & He)
  end.
  exists result. split; [reflexivity |]. by repeat split.
Qed.

(** Every invocation ends in one of five ways; [P] holds of all
    invocations as soon as it holds of each. *)
Lemma invoke_paths σ uuid c x t
    (P : (Exn + gmap string PyVal) * Frame Σ → Prop) :
  let sid := "session_" +:+ uuid in
  let msg := initial_message c x t in
  (∀ e σ1, create_session service σ APP_NAME USER_ID sid = (inl e, σ1) →
     P (inr {[ "error" := VStr ("Failed to create session: " +:+ exn_str e) ]},
        created_frame σ1 sid)) →
  (∀ s σ1 e captured σ2 r σ3 result fr,
     create_session service σ APP_NAME USER_ID sid = (inr s, σ1) →
     drain (run runner σ1 USER_ID sid msg) None = (Some e, captured, σ2) →
     get_session service σ2 APP_NAME USER_ID sid = (r, σ3) →
     fr = {| store := σ3;
             calls := [CreateSession APP_NAME USER_ID sid;
                       RunnerRun USER_ID sid msg;
                       GetSession APP_NAME USER_ID sid];
             final_response_text := captured;
             error_message := Some ("Agent execution failed: " +:+ exn_str e);
             final_state_dict :=
               match r with inr (Some s') => state s' | _ => ∅ end |} →
     result !! "session_id" = Some (VStr sid) →
     result !! "final_state" = Some (VDict (final_state_dict fr)) →
     result !! "final_response"
       = Some (extracted (final_state_dict fr) captured) →
     result !! "error"
       = Some (VStr ("Agent execution failed: " +:+ exn_str e)) →
     P (inr result, fr)) →
  (∀ s σ1 captured σ2 s' σ3 result fr,
     create_session service σ APP_NAME USER_ID sid = (inr s, σ1) →
     drain (run runner σ1 USER_ID sid msg) None = (None, captured, σ2) →
     get_session service σ2 APP_NAME USER_ID sid = (inr (Some s'), σ3) →
     fr = {| store := σ3;
             calls := [CreateSession APP_NAME USER_ID sid;
                       RunnerRun USER_ID sid msg;
                       GetSession APP_NAME USER_ID sid];
             final_response_text := captured;
             error_message := None;
             final_state_dict := state s' |} →
     result !! "session_id" = Some (VStr sid) →
     result !! "final_state" = Some (VDict (state s')) →
     result !! "final_response" = Some (extracted (state s') captured) →
     result !! "error" = Some VNone →
     P (inr result, fr)) →
  (∀ s σ1 captured σ2 σ3 result fr,
     create_session service σ APP_NAME USER_ID sid = (inr s, σ1) →
     drain (run runner σ1 USER_ID sid msg) None = (None, captured, σ2) →
     get_session service σ2 APP_NAME USER_ID sid = (inr None, σ3) →
     fr = {| store := σ3;
             calls := [CreateSession APP_NAME USER_ID sid;
                       RunnerRun USER_ID sid msg;
                       GetSession APP_NAME USER_ID sid];
             final_response_text := captured;
             error_message := Some "Failed to retrieve final session state.";
             final_state_dict := ∅ |} →
     result !! "session_id" = Some (VStr sid) →
     result !! "final_state" = Some (VDict ∅) →
     result !! "final_response" = Some (extracted ∅ captured) →
     result !! "error"
       = Some (VStr "Failed to retrieve final session state.") →
     P (inr result, fr)) →
  (∀ s σ1 captured σ2 e σ3 r σ4 result fr,
     create_session service σ APP_NAME USER_ID sid = (inr s, σ1) →
     drain (run runner σ1 USER_ID sid msg) None = (None, captured, σ2) →
     get_session service σ2 APP_NAME USER_ID sid = (inl e, σ3) →
     get_session service σ3 APP_NAME USER_ID sid = (r, σ4) →
     fr = {| store := σ4;
             calls := [CreateSession APP_NAME USER_ID sid;
                       RunnerRun USER_ID sid msg;
                       GetSession APP_NAME USER_ID sid;
                       GetSession APP_NAME USER_ID sid];
             final_response_text := captured;
             error_message := Some ("Agent execution failed: " +:+ exn_str e);
             final_state_dict :=
               match r with inr (Some s') => state s' | _ => ∅ end |} →
     result !! "session_id" = Some (VStr sid) →
     result !! "final_state" = Some (VDict (final_state_dict fr)) →
     result !! "final_response"
       = Some (extracted (final_state_dict fr) captured) →
     result !! "error"
       = Some (VStr ("Agent execution failed: " +:+ exn_str e)) →
     P (inr result, fr)) →
  P (invoke service run σ uuid c x t).
Proof.
  intros sid msg Hrefused Hraised Hfound Hmissing Hunreadable.
  destruct (create_session service σ APP_NAME USER_ID sid)
    as [[e | s] σ1] eqn:Hc.
  { rewrite (invoke_refused _ _ _ _ _ _ _ _ _ Hc). by apply Hrefused. }
  destruct (drain (run runner σ1 USER_ID sid msg) None)
    as [[o captured] σ2] eqn:Hd.
  destruct (get_session service σ2 APP_NAME USER_ID sid) as [r σ3] eqn:Hg.
  destruct o as [e |].
  { destruct (invoke_raised _ _ _ _ _ _ _ _ _ _ _ _ _ _ Hc Hd Hg)
      as (result & -> & Hs & Hf & Hr & He).
    by eapply Hraised. }
  destruct r as [e | [s' |]].
  - destruct (get_session service σ3 APP_NAME USER_ID sid) as [r' σ4] eqn:Hg'.
    destruct (invoke_clean_unreadable _ _ _ _ _ _ _ _ _ _ _ _ _ Hc Hd Hg Hg')
      as (result & -> & Hs & Hf & Hr & He).
    by eapply Hunreadable.
  - destruct (invoke_clean_found _ _ _ _ _ _ _ _ _ _ _ _ _ Hc Hd Hg)
      as (result & -> & Hs & Hf & Hr & He).
    by eapply Hfound.
  - destruct (invoke_clean_missing _ _ _ _ _ _ _ _ _ _ _ _ Hc Hd Hg)
      as (result & -> & Hs & Hf & Hr & He).
    by eapply Hmissing.
Qed.

(** X1.  The calls of an invocation: [create_session] once and first; when
    it raises, nothing else; otherwise [runner.run] once, then one
    [get_session], and a second one exactly when the run raised nothing and
    the first read raised.  Every call carries the constants [APP_NAME] and
    [USER_ID] and the session identifier of the invocation. *)
Theorem invocation_call_protocol σ uuid c x t :
  let sid := "session_" +:+ uuid in
  let msg := initial_message c x t in
  let log := calls (invoke service run σ uuid c x t).2 in
  match create_session service σ APP_NAME USER_ID sid with
  | (inl _, _) => log = [CreateSession APP_NAME USER_ID sid]
  | (inr _, σ1) =>
      match drain (run runner σ1 USER_ID sid msg) None with
      | (Some _, _, _) =>
          log = [CreateSession APP_NAME USER_ID sid; RunnerRun USER_ID sid msg;
                 GetSession APP_NAME USER_ID sid]
      | (None, _, σ2) =>
          match (get_session service σ2 APP_NAME USER_ID sid).1 with
          | inr _ =>
              log = [CreateSession APP_NAME USER_ID sid;
                     RunnerRun USER_ID sid msg;
                     GetSession APP_NAME USER_ID sid]
          | inl _ =>
              log = [CreateSession APP_NAME USER_ID sid;
                     RunnerRun USER_ID sid msg;
                     GetSession APP_NAME USER_ID sid;
                     GetSession APP_NAME USER_ID sid]
          end
      end
  end.
Proof.
  intros sid msg. subst sid msg. cbv zeta.
  pattern (invoke service run σ uuid c x t).
  apply invoke_paths.
  - intros e σ1 Hc. by rewrite Hc.
  - intros s σ1 e captured σ2 r σ3 result fr Hc Hd Hg -> _ _ _ _.
    by rewrite Hc, Hd.
  - intros s σ1 captured σ2 s' σ3 result fr Hc Hd Hg -> _ _ _ _.
    by rewrite Hc, Hd, Hg.
  - intros s σ1 captured σ2 σ3 result fr Hc Hd Hg -> _ _ _ _.
    by rewrite Hc, Hd, Hg.
  - intros s σ1 captured σ2 e σ3 r σ4 result fr Hc Hd Hg Hg' -> _ _ _ _.
    by rewrite Hc, Hd, Hg.
Qed.

(** X2.  The result carries a null [error] exactly when the session was
    created, the run raised nothing and the read that follows answered a
    session. *)
Theorem error_is_null_iff_clean_and_found σ uuid c x t :
  let sid := "session_" +:+ uuid in
  (∃ result, (invoke service run σ uuid c x t).1 = inr result
             ∧ result !! "error" = Some VNone)
  ↔ (∃ s σ1 captured σ2 s' σ3,
       create_session service σ APP_NAME USER_ID sid = (inr s, σ1)
       ∧ drain (run runner σ1 USER_ID sid (initial_message c x t)) None
           = (None, captured, σ2)
       ∧ get_session service σ2 APP_NAME USER_ID sid = (inr (Some s'), σ3)).
Proof.
  intros sid. subst sid. split.
  - apply (invoke_paths σ uuid c x t
             (λ out, (∃ result, out.1 = inr result
                                ∧ result !! "error" = Some VNone) → _)).
    + intros e σ1 Hc (result & [= <-] & He).
      by rewrite lookup_singleton_eq in He.
    + intros s σ1 e captured σ2 r σ3 result fr _ _ _ _ _ _ _ He
        (result' & [= <-] & He'). congruence.
    + intros s σ1 captured σ2 s' σ3 result fr Hc Hd Hg _ _ _ _ _ _.
      by exists s, σ1, captured, σ2, s', σ3.
    + intros s σ1 captured σ2 σ3 result fr _ _ _ _ _ _ _ He
        (result' & [= <-] & He'). congruence.
    + intros s σ1 captured σ2 e σ3 r σ4 result fr _ _ _ _ _ _ _ _ He
        (result' & [= <-] & He'). congruence.
  - intros (s & σ1 & captured & σ2 & s' & σ3 & Hc & Hd & Hg).
    destruct (invoke_clean_found _ _ _ _ _ _ _ _ _ _ _ _ _ Hc Hd Hg)
      as (result & -> & _ & _ & _ & He).
    by exists result.
Qed.

(** X3.  The [final_state] of a result is never built by the function: it
    is the empty dictionary, or the state of a session that [get_session]
    answered for this invocation's identifier. *)
Theorem final_state_comes_from_the_store σ uuid c x t result fsd :
  (invoke service run σ uuid c x t).1 = inr result →
  result !! "final_state" = Some (VDict fsd) →
  fsd = ∅
  ∨ ∃ σa s' σb,
      get_session service σa APP_NAME USER_ID ("session_" +:+ uuid)
        = (inr (Some s'), σb)
      ∧ fsd = state s'.
Proof.
  revert result fsd.
  apply (invoke_paths σ uuid c x t
           (λ out, ∀ result fsd, out.1 = inr result →
                                 result !! "final_state" = Some (VDict fsd) → _)).
  - intros e σ1 Hc result fsd [= <-] Hf.
    by rewrite lookup_singleton_ne in Hf.
  - intros s σ1 e captured σ2 r σ3 result fr _ _ Hg -> _ Hf _ _
      result' fsd [= <-] Hf'.
    rewrite Hf in Hf'. injection Hf' as <-. cbn.
    destruct r as [e' | [s' |]];
      [by left | right; by eexists _, _, _ | by left].
  - intros s σ1 captured σ2 s' σ3 result fr _ _ Hg -> _ Hf _ _
      result' fsd [= <-] Hf'.
    rewrite Hf in Hf'. injection Hf' as <-. right. by eexists _, _, _.
  - intros s σ1 captured σ2 σ3 result fr _ _ Hg -> _ Hf _ _
      result' fsd [= <-] Hf'.
    rewrite Hf in Hf'. injection Hf' as <-. by left.
  - intros s σ1 captured σ2 e σ3 r σ4 result fr _ _ _ Hg' -> _ Hf _ _
      result' fsd [= <-] Hf'.
    rewrite Hf in Hf'. injection Hf' as <-. cbn.
    destruct r as [e' | [s' |]];
      [by left | right; by eexists _, _, _ | by left].
Qed.

(** X6.  When the run raises nothing but the read of line 106 raises [e],
    the handler reads once more: [get_session] is called twice, [error] is
    ["Agent execution failed: e"], and [final_state] is what the second read
    answers, empty when it answers no session or raises too. *)
Theorem unreadable_session_after_clean_run
    σ uuid c x t s σ1 captured σ2 e σ3 r σ4 :
  create_session service σ APP_NAME USER_ID ("session_" +:+ uuid)
    = (inr s, σ1) →
  drain (run runner σ1 USER_ID ("session_" +:+ uuid) (initial_message c x t))
    None = (None, captured, σ2) →
  get_session service σ2 APP_NAME USER_ID ("session_" +:+ uuid)
    = (inl e, σ3) →
  get_session service σ3 APP_NAME USER_ID ("session_" +:+ uuid) = (r, σ4) →
  ∃ result fr,
    invoke service run σ uuid c x t = (inr result, fr)
    ∧ count_get_session (calls fr) = 2
    ∧ result !! "error"
        = Some (VStr ("Agent execution failed: " +:+ exn_str e))
    ∧ result !! "final_state"
        = Some (VDict match r with
                      | inr (Some s') => state s'
                      | _ => ∅
                      end).
Proof.
  intros Hc Hd Hg Hg'.
  destruct (invoke_clean_unreadable _ _ _ _ _ _ _ _ _ _ _ _ _ Hc Hd Hg Hg')
    as (result & Heq & _ & Hf & _ & He).
  eexists _, _. split; [exact Heq |].
  split; [reflexivity |]. split; [exact He | exact Hf].
Qed.





End RunnerProtocol.

(** ** Concrete runs of the further properties *)
Section ProtocolRuns.

Import Examples Scenarios.

(** X3, witness: a clean run read back from a store answering one state. *)
Lemma final_state_comes_from_the_store_witness :
  ∃ result,
    (invoke (fixed_service {[ "initial_data" := VStr setup_text ]})
       (quiet_run []) tt uuid comment context tone).1 = inr result
    ∧ ({[ "initial_data" := VStr setup_text ]} = (∅ : gmap string PyVal)
       ∨ ∃ σa s' σb,
           get_session (fixed_service {[ "initial_data" := VStr setup_text ]})
             σa APP_NAME USER_ID ("session_" +:+ uuid) = (inr (Some s'), σb)
           ∧ {[ "initial_data" := VStr setup_text ]} = state s').
Proof.
  destruct (invoke_clean_found
              (fixed_service {[ "initial_data" := VStr setup_text ]})
              (quiet_run []) tt uuid comment context tone
              {| session_id_of := sid; state := ∅ |} tt None tt
              {| session_id_of := sid;
                 state := {[ "initial_data" := VStr setup_text ]} |} tt
              eq_refl eq_refl eq_refl)
    as (result & Heq & _ & Hf & _).
  exists result. split; [by rewrite Heq |].
  apply (final_state_comes_from_the_store
           (fixed_service {[ "initial_data" := VStr setup_text ]})
           (quiet_run []) tt uuid comment context tone result).
  - by rewrite Heq.
  - exact Hf.
Defined.



(** X6, witness: the store can be written but never read. *)
Lemma unreadable_session_after_clean_run_witness :
  ∃ result fr,
    invoke (write_only_service false) (quiet_run []) tt
      uuid comment context tone = (inr result, fr)
    ∧ count_get_session (calls fr) = 2
    ∧ result !! "error"
        = Some (VStr ("Agent execution failed: "
                      +:+ exn_str (Exception "store offline")))
    ∧ result !! "final_state"
        = Some (VDict match @inl Exn (option Session)
                              (Exception "store offline") with
                      | inr (Some s') => state s'
                      | _ => ∅
                      end).
Proof.
  apply (unreadable_session_after_clean_run (write_only_service false)
           (quiet_run []) tt uuid comment context tone
           {| session_id_of := sid; state := ∅ |} tt None tt
           (Exception "store offline") tt
           (inl (Exception "store offline")) tt);
    reflexivity.
Defined.

End ProtocolRuns.

(** * Properties of the web layer *)
Section BlogStore.

Import Blog.

Lemma posts_get_None posts post_slug :
  post_slug ∉ posts.*1 → posts_get posts post_slug = None.
Proof.
  induction posts as [| [k p] posts IH]; [reflexivity |].
  intros Hnot. cbn. destruct (String.eqb_spec k post_slug) as [-> | Hne].
  - exfalso. apply Hnot. cbn. by left.
  - apply IH. intros Hin. apply Hnot. cbn. by right.
Qed.

Lemma posts_get_Some posts post_slug post :
  posts_get posts post_slug = Some post → (post_slug, post) ∈ posts.
Proof.
  induction posts as [| [k p] posts IH]; [discriminate |].
  cbn. destruct (String.eqb_spec k post_slug) as [-> | Hne].
  - intros [= ->]. by left.
  - intros H. right. by apply IH.
Qed.

Lemma posts_append_keys posts post_slug c :
  (posts_append posts post_slug c).*1 = posts.*1.
Proof.
  induction posts as [| [k p] posts IH]; [reflexivity |].
  cbn. destruct (String.eqb k post_slug); cbn; [reflexivity |].
  by rewrite IH.
Qed.

Lemma posts_append_summaries posts post_slug c :
  map (λ kv : string * Post, {| ps_title := title kv.2; ps_slug := slug kv.2 |})
      (posts_append posts post_slug c)
  = map (λ kv, {| ps_title := title kv.2; ps_slug := slug kv.2 |}) posts.
Proof.
  induction posts as [| [k p] posts IH]; [reflexivity |].
  cbn. destruct (String.eqb k post_slug); cbn; [reflexivity |].
  by rewrite IH.
Qed.

Lemma posts_get_append_same posts post_slug c post :
  posts_get posts post_slug = Some post →
  posts_get (posts_append posts post_slug c) post_slug
  = Some {| title := title post; slug := slug post; content := content post;
            audio_url := audio_url post; comments := comments post ++ [c] |}.
Proof.
  induction posts as [| [k p] posts IH]; [discriminate |].
  cbn. destruct (String.eqb k post_slug) eqn:Hk.
  - intros [= ->]. cbn. by rewrite Hk.
  - intros H. cbn. rewrite Hk. by apply IH.
Qed.

Lemma posts_get_append_other posts post_slug c other :
  other ≠ post_slug →
  posts_get (posts_append posts post_slug c) other = posts_get posts other.
Proof.
  intros Hne. induction posts as [| [k p] posts IH]; [reflexivity |].
  cbn. destruct (String.eqb_spec k post_slug) as [-> | Hk]; cbn.
  - destruct (String.eqb_spec post_slug other) as [-> | _]; done.
  - by rewrite IH.
Qed.

(** Appending to a stored post adds one identifier to the store. *)
Lemma comment_ids_append posts post_slug c post :
  posts_get posts post_slug = Some post →
  comment_ids (posts_append posts post_slug c) ≡ₚ c_id c :: comment_ids posts.
Proof.
  unfold comment_ids.
  induction posts as [| [k p] posts IH]; [discriminate |].
  cbn. destruct (String.eqb k post_slug) eqn:Hk.
  - intros _. cbn. rewrite map_app. cbn.
    rewrite <- app_assoc. cbn. by rewrite <- Permutation_middle.
  - intros H. cbn. rewrite (IH H).
    by rewrite <- Permutation_middle.
Qed.

End BlogStore.

Section BlogFacts.

Import Blog.

Context {Σ : Type}.
Variable service : SessionService Σ.
Variable run : Runner → Σ → string → string → Content → EventStream Σ.

Let runner : Runner :=
  {| agent := comment_interaction_agent; app_name := APP_NAME |}.

Lemma truthy_text txt : txt ≠ "" → truthy (VStr txt) = true.
Proof. intros H. cbn. by destruct (String.eqb_spec txt ""). Qed.

(** A result whose [error] is a message yields no agent response. *)
Lemma agent_response_of_error tone result msg :
  result !! "error" = Some (VStr msg) →
  truthy (VStr msg) = true →
  agent_response_of tone result = inr None.
Proof.
  intros He Ht. unfold agent_response_of.
  replace (dict_get result "error") with (VStr msg)
    by (unfold dict_get; by rewrite He).
  by rewrite Ht.
Qed.

(** The request of a known post when the session is refused. *)
Lemma add_comment_refused σ uuid app post_slug request post e σ1 :
  posts_get (mock_posts app) post_slug = Some post →
  create_session service σ APP_NAME USER_ID ("session_" +:+ uuid)
    = (inl e, σ1) →
  let cm := {| c_id := "c" +:+ pretty (next_comment_id app);
               c_commenter := rq_commenter request;
               c_text := rq_text request;
               c_agent_response := None |} in
  add_comment service run σ uuid app post_slug request
  = (inr cm,
     {| mock_posts := posts_append (mock_posts app) post_slug cm;
        next_comment_id := S (next_comment_id app) |},
     created_frame σ1 ("session_" +:+ uuid)).
Proof.
  intros Hget Hc cm. unfold add_comment. rewrite Hget.
  rewrite (invoke_refused _ _ _ _ _ _ _ _ _ Hc).
  erewrite agent_response_of_error;
    [| apply lookup_singleton_eq | reflexivity].
  reflexivity.
Qed.

(** X9.  A slug that is not a key of [mock_posts] is answered 404 "Post
    not found" by [get_post] and by [add_comment]; [add_comment] then
    leaves the posts and the counter as they were and never reaches the
    session service. *)
Theorem unknown_slug_is_not_found σ uuid app post_slug request :
  post_slug ∉ (mock_posts app).*1 →
  get_post app post_slug = inl (HTTPException 404 "Post not found")
  ∧ add_comment service run σ uuid app post_slug request
    = (inl (HTTPException 404 "Post not found"), app, entry_frame σ).
Proof.
  intros Hnot. unfold get_post, add_comment.
  by rewrite (posts_get_None _ _ Hnot).
Qed.

(** X10.  Whatever it answers, [add_comment] never adds, removes, renames
    or reorders posts, and never lowers the counter: [list_posts] answers
    the same before and after. *)
Theorem add_comment_keeps_the_posts σ uuid app post_slug request :
  let app' := (add_comment service run σ uuid app post_slug request).1.2 in
  list_posts app' = list_posts app
  ∧ (mock_posts app').*1 = (mock_posts app).*1
  ∧ (next_comment_id app ≤ next_comment_id app')%nat.
Proof.
  cbv zeta. unfold add_comment.
  destruct (posts_get (mock_posts app) post_slug) as [post |]; [| done].
  destruct (invoke service run σ uuid (rq_text request) (post_context post)
              (tone_literal (rq_tone request))) as [[e | result] fr]; [done |].
  destruct (agent_response_of (rq_tone request) result) as [e | resp];
    [done |].
  cbn. unfold list_posts. cbn.
  rewrite posts_append_summaries, posts_append_keys. repeat split. lia.
Qed.

(** X11.  A comment that [add_comment] answers is stored: it is numbered
    with the counter, which grows by one; it carries the commenter and the
    text of the request; [get_post] on the same slug then shows it last,
    after the comments that were there; every other post is as before. *)
Theorem added_comment_is_stored σ uuid app post_slug request cm app' fr :
  add_comment service run σ uuid app post_slug request = (inr cm, app', fr) →
  c_id cm = "c" +:+ pretty (next_comment_id app)
  ∧ c_commenter cm = rq_commenter request
  ∧ c_text cm = rq_text request
  ∧ next_comment_id app' = S (next_comment_id app)
  ∧ (∃ post,
       posts_get (mock_posts app) post_slug = Some post
       ∧ get_post app' post_slug
         = inr {| pd_title := title post; pd_slug := slug post;
                  pd_content := content post;
                  pd_comments := comments post ++ [cm];
                  pd_audio_url := audio_url post |})
  ∧ (∀ other, other ≠ post_slug → get_post app' other = get_post app other).
Proof.
  unfold add_comment.
  destruct (posts_get (mock_posts app) post_slug) as [post |] eqn:Hget;
    [| discriminate].
  destruct (invoke service run σ uuid (rq_text request) (post_context post)
              (tone_literal (rq_tone request))) as [[e | result] fr0];
    [discriminate |].
  destruct (agent_response_of (rq_tone request) result) as [e | resp];
    [discriminate |].
  intros [= <- <- <-]. cbn. do 4 (split; [reflexivity |]). split.
  - exists post. split; [reflexivity |]. unfold get_post. cbn.
    by rewrite (posts_get_append_same _ _ _ _ Hget).
  - intros other Hne. unfold get_post. cbn.
    by rewrite (posts_get_append_other _ _ _ _ Hne).
Qed.

(** X12.  [add_comment] keeps the numbering discipline: if every stored
    identifier is ["c"] followed by a number below the counter and no
    identifier is stored twice, the same holds afterwards, and the
    identifier of the comment it answers was not in the store. *)
Theorem add_comment_keeps_numbering σ uuid app post_slug request :
  well_numbered app →
  let out := add_comment service run σ uuid app post_slug request in
  well_numbered out.1.2
  ∧ ∀ cm, out.1.1 = inr cm → c_id cm ∉ comment_ids (mock_posts app).
Proof.
  intros [Hnodup Hbelow]. cbv zeta.
  assert (Hfresh : "c" +:+ pretty (next_comment_id app)
                   ∉ comment_ids (mock_posts app)).
  { intros Hin. destruct (Hbelow _ Hin) as (n & Heq & Hlt).
    apply (inj (String.app "c")) in Heq. apply (inj pretty) in Heq. lia. }
  unfold add_comment.
  destruct (posts_get (mock_posts app) post_slug) as [post |] eqn:Hget;
    [| by split].
  destruct (invoke service run σ uuid (rq_text request) (post_context post)
              (tone_literal (rq_tone request))) as [[e | result] fr0];
    [by split |].
  destruct (agent_response_of (rq_tone request) result) as [e | resp];
    [by split |].
  cbn. split; [| by intros cm [= <-]].
  unfold well_numbered. cbn [mock_posts next_comment_id].
  split.
  - rewrite (comment_ids_append _ _ _ _ Hget). cbn. by constructor.
  - intros i Hin. rewrite (comment_ids_append _ _ _ _ Hget) in Hin.
    apply elem_of_cons in Hin as [-> | Hin].
    + exists (next_comment_id app). split; [reflexivity | lia].
    + destruct (Hbelow _ Hin) as (n & Heq & Hlt).
      exists n. split; [exact Heq | lia].
Qed.

(** X13.  Unless the session was created, the run raised nothing and the
    session was read back, the comment of a known post is still stored and
    answered, without an agent response: a failure of the agents never
    fails the request. *)
Theorem failed_run_stores_comment_without_response
    σ uuid app post_slug request post :
  let sid := "session_" +:+ uuid in
  let msg := initial_message (rq_text request) (post_context post)
               (tone_literal (rq_tone request)) in
  posts_get (mock_posts app) post_slug = Some post →
  ¬ (∃ s σ1 captured σ2 s' σ3,
       create_session service σ APP_NAME USER_ID sid = (inr s, σ1)
       ∧ drain (run runner σ1 USER_ID sid msg) None = (None, captured, σ2)
       ∧ get_session service σ2 APP_NAME USER_ID sid = (inr (Some s'), σ3)) →
  let cm := {| c_id := "c" +:+ pretty (next_comment_id app);
               c_commenter := rq_commenter request;
               c_text := rq_text request;
               c_agent_response := None |} in
  ∃ fr,
    add_comment service run σ uuid app post_slug request
    = (inr cm,
       {| mock_posts := posts_append (mock_posts app) post_slug cm;
          next_comment_id := S (next_comment_id app) |},
       fr).
Proof.
  intros sid msg Hget Hnot cm. subst sid msg cm.
  unfold add_comment. rewrite Hget.
  pattern (invoke service run σ uuid (rq_text request) (post_context post)
             (tone_literal (rq_tone request))).
  apply invoke_paths.
  - intros e σ1 Hc.
    erewrite agent_response_of_error;
      [| apply lookup_singleton_eq | reflexivity].
    by eexists.
  - intros s σ1 e captured σ2 r σ3 result fr Hc Hd Hg -> _ _ _ He.
    erewrite agent_response_of_error; [| exact He | reflexivity].
    by eexists.
  - intros s σ1 captured σ2 s' σ3 result fr Hc Hd Hg _ _ _ _ _.
    exfalso. apply Hnot. by exists s, σ1, captured, σ2, s', σ3.
  - intros s σ1 captured σ2 σ3 result fr Hc Hd Hg -> _ _ _ He.
    erewrite agent_response_of_error; [| exact He | reflexivity].
    by eexists.
  - intros s σ1 captured σ2 e σ3 r σ4 result fr Hc Hd Hg Hg' -> _ _ _ He.
    erewrite agent_response_of_error; [| exact He | reflexivity].
    by eexists.
Qed.

(** X14.  When the run raises nothing and the session read back holds a
    non-empty text under [final_response], the comment is stored with an
    agent response made of the tone of the request and that text. *)
Theorem clean_run_attaches_the_response
    σ uuid app post_slug request post s σ1 captured σ2 s' σ3 txt :
  let sid := "session_" +:+ uuid in
  let msg := initial_message (rq_text request) (post_context post)
               (tone_literal (rq_tone request)) in
  posts_get (mock_posts app) post_slug = Some post →
  create_session service σ APP_NAME USER_ID sid = (inr s, σ1) →
  drain (run runner σ1 USER_ID sid msg) None = (None, captured, σ2) →
  get_session service σ2 APP_NAME USER_ID sid = (inr (Some s'), σ3) →
  state s' !! "final_response" = Some (VStr txt) →
  txt ≠ "" →
  ∃ cm app' fr,
    add_comment service run σ uuid app post_slug request = (inr cm, app', fr)
    ∧ c_agent_response cm
      = Some {| ar_tone := tone_literal (rq_tone request); ar_text := txt |}.
Proof.
  intros sid msg Hget Hc Hd Hg Hk Hne. subst sid msg.
  unfold add_comment. rewrite Hget.
  destruct (invoke_clean_found _ _ _ _ _ _ _ _ _ _ _ _ _ Hc Hd Hg)
    as (result & -> & _ & _ & Hr & He).
  unfold agent_response_of, dict_get. rewrite He, Hr. cbn [default from_option id truthy].
  unfold extracted, dict_get. rewrite Hk. cbn [default from_option id].
  rewrite (truthy_text _ Hne). cbn [negb andb].
  rewrite (truthy_text _ Hne). by eexists _, _, _.
Qed.

(** X15.  For a known post, [add_comment] lets an exception through only
    if a session state holds something else than a text under
    [final_response]: when every state that [get_session] answers holds a
    string or [None] there (or nothing), the request is answered with the
    stored comment. *)
Theorem add_comment_answers_when_responses_are_text
    σ uuid app post_slug request post :
  posts_get (mock_posts app) post_slug = Some post →
  (∀ σa s' σb v,
     get_session service σa APP_NAME USER_ID ("session_" +:+ uuid)
       = (inr (Some s'), σb) →
     state s' !! "final_response" = Some v →
     v = VNone ∨ ∃ txt, v = VStr txt) →
  ∃ cm app' fr,
    add_comment service run σ uuid app post_slug request = (inr cm, app', fr).
Proof.
  intros Hget Htext. unfold add_comment. rewrite Hget.
  pattern (invoke service run σ uuid (rq_text request) (post_context post)
             (tone_literal (rq_tone request))).
  apply invoke_paths.
  - intros e σ1 Hc.
    erewrite agent_response_of_error;
      [| apply lookup_singleton_eq | reflexivity].
    by eexists _, _, _.
  - intros s σ1 e captured σ2 r σ3 result fr Hc Hd Hg -> _ _ _ He.
    erewrite agent_response_of_error; [| exact He | reflexivity].
    by eexists _, _, _.
  - intros s σ1 captured σ2 s' σ3 result fr Hc Hd Hg -> _ _ Hr He.
    unfold agent_response_of, dict_get. rewrite He, Hr.
    cbn [default from_option id truthy].
    assert (Hv : extracted (state s') captured = VNone
                 ∨ ∃ txt, extracted (state s') captured = VStr txt).
    { unfold extracted, dict_get.
      destruct (state s' !! "final_response") as [v |] eqn:Hk;
        cbn [default from_option id].
      - destruct (Htext _ _ _ _ Hg Hk) as [-> | [txt ->]].
        + destruct captured as [t |]; cbn; [| by left].
          destruct (String.eqb t ""); cbn; [by left | right; by eexists].
        + destruct (negb (truthy (VStr txt)) && truthy (of_opt_str captured));
            [| right; by eexists].
          destruct captured as [t |]; cbn; [right; by eexists | by left].
      - destruct captured as [t |]; cbn; [| by left].
        destruct (String.eqb t ""); cbn; [by left | right; by eexists]. }
    destruct Hv as [-> | [txt ->]]; cbn.
    + by eexists _, _, _.
    + destruct (negb (String.eqb txt "")); by eexists _, _, _.
  - intros s σ1 captured σ2 σ3 result fr Hc Hd Hg -> _ _ _ He.
    erewrite agent_response_of_error; [| exact He | reflexivity].
    by eexists _, _, _.
  - intros s σ1 captured σ2 e σ3 r σ4 result fr Hc Hd Hg Hg' -> _ _ _ He.
    erewrite agent_response_of_error; [| exact He | reflexivity].
    by eexists _, _, _.
Qed.

(** X20.  For a known post whose session is created, the agents are run
    once, on a message made of the text of the request as comment, the
    title and the content of the post as context, and the tone of the
    request; the frame [add_comment] ends in is the one the interaction
    ended in. *)
Theorem add_comment_sends_the_post_as_context
    σ uuid app post_slug request post s σ1 :
  posts_get (mock_posts app) post_slug = Some post →
  create_session service σ APP_NAME USER_ID ("session_" +:+ uuid)
    = (inr s, σ1) →
  let seed := Json.dumps
                [("comment", rq_text request);
                 ("context",
                  "Blog Post Title: " +:+ title post +:+ newline +:+ newline
                  +:+ content post);
                 ("tone", tone_literal (rq_tone request))] in
  let message := {| role := "user";
                    parts := Some [ {| text := Some seed |} ] |} in
  let log := calls (add_comment service run σ uuid app post_slug request).2 in
  ∃ reads,
    log = CreateSession APP_NAME USER_ID ("session_" +:+ uuid)
          :: RunnerRun USER_ID ("session_" +:+ uuid) message :: reads
    ∧ Forall (λ call, call = GetSession APP_NAME USER_ID ("session_" +:+ uuid))
        reads.
Proof.
  intros Hget Hc. cbv zeta. unfold add_comment. rewrite Hget.
  pattern (invoke service run σ uuid (rq_text request) (post_context post)
             (tone_literal (rq_tone request))).
  apply invoke_paths.
  - intros e σ1' Hc'. congruence.
  - intros s0 σ0 e captured σ2 r σ3 result fr _ _ _ -> _ _ _ _.
    destruct (agent_response_of (rq_tone request) result);
      eexists; (split; [reflexivity |]); by repeat constructor.
  - intros s0 σ0 captured σ2 s' σ3 result fr _ _ _ -> _ _ _ _.
    destruct (agent_response_of (rq_tone request) result);
      eexists; (split; [reflexivity |]); by repeat constructor.
  - intros s0 σ0 captured σ2 σ3 result fr _ _ _ -> _ _ _ _.
    destruct (agent_response_of (rq_tone request) result);
      eexists; (split; [reflexivity |]); by repeat constructor.
  - intros s0 σ0 captured σ2 e σ3 r σ4 result fr _ _ _ _ -> _ _ _ _.
    destruct (agent_response_of (rq_tone request) result);
      eexists; (split; [reflexivity |]); by repeat constructor.
Qed.

End BlogFacts.

(** * Further properties of the pipeline on the in-memory store *)
Section PipelineIsolation.

Import Blog.

Variable backend : Backend.

Lemma other_sessions_are_untouched_aux w uuid c x t key :
  key ≠ session_key uuid →
  sessions (store (pipeline_invoke backend w uuid c x t).2) !! key
  = sessions w !! key.
Proof.
  intros Hne.
  destruct (sessions w !! session_key uuid) as [st |] eqn:Hk.
  - by rewrite (pipeline_invoke_duplicate backend w uuid c x t st Hk).
  - destruct (pipeline_invoke_fresh backend w uuid c x t Hk)
      as (result & -> & _).
    cbn [snd store sessions]. by rewrite lookup_insert_ne.
Qed.

(** X16.  An invocation leaves every session of the store other than its
    own exactly as it found it, and deletes none: a session that was in
    the store is still there afterwards. *)
Theorem other_sessions_are_untouched w uuid c x t :
  let w' := store (pipeline_invoke backend w uuid c x t).2 in
  (∀ key, key ≠ session_key uuid → sessions w' !! key = sessions w !! key)
  ∧ (∀ key, is_Some (sessions w !! key) → is_Some (sessions w' !! key)).
Proof.
  cbv zeta. split.
  - intros key. apply other_sessions_are_untouched_aux.
  - intros key Hsome.
    destruct (decide (key = session_key uuid)) as [-> | Hne].
    + destruct Hsome as [st Hk].
      by rewrite (pipeline_invoke_duplicate backend w uuid c x t st Hk).
    + by rewrite other_sessions_are_untouched_aux.
Qed.

(** X17.  Successive invocations do not see each other: with a fresh
    identifier, the four fields of the result are the same whether or not
    an invocation with another identifier ran on the store before. *)
Theorem earlier_invocation_does_not_change_the_next
    w uuid_a c_a x_a t_a uuid_b c x t :
  uuid_a ≠ uuid_b →
  sessions w !! session_key uuid_b = None →
  let w_a := store (pipeline_invoke backend w uuid_a c_a x_a t_a).2 in
  ∃ after alone,
    (pipeline_invoke backend w_a uuid_b c x t).1 = inr after
    ∧ (pipeline_invoke backend w uuid_b c x t).1 = inr alone
    ∧ ∀ k, k ∈ result_keys → after !! k = alone !! k.
Proof.
  intros Hne Hfresh w_a.
  assert (Hfresh_a : sessions w_a !! session_key uuid_b = None).
  { subst w_a. rewrite other_sessions_are_untouched_aux; [exact Hfresh |].
    unfold session_key. intros [= H]. apply Hne. symmetry. exact H. }
  destruct (pipeline_invoke_fresh backend w_a uuid_b c x t Hfresh_a)
    as (after & -> & Hs1 & Hf1 & Hr1 & He1).
  destruct (pipeline_invoke_fresh backend w uuid_b c x t Hfresh)
    as (alone & -> & Hs2 & Hf2 & Hr2 & He2).
  exists after, alone. do 2 (split; [reflexivity |]).
  intros k Hk. unfold result_keys in Hk.
  repeat (apply elem_of_cons in Hk as [-> | Hk]); try congruence.
  by apply elem_of_nil in Hk.
Qed.

(** X18.  When the three stages answer and the Responder's text is not
    empty, the result carries no error, the Responder's text as
    [final_response], and a [final_state] holding the three outputs under
    [initial_data], [analysis] and [final_response]; the three stages ran,
    in order. *)
Theorem three_answers_give_the_reply ss uuid c x t r0 r1 r2 :
  ss !! session_key uuid = None →
  backend state_setup_agent (setup_input c x t) = inr r0 →
  backend comment_analyzer_agent (analyzer_input c x t r0) = inr r1 →
  backend comment_responder_agent (responder_input c x t r0 r1) = inr r2 →
  reply_text r2 ≠ "" →
  let out := pipeline_invoke backend {| sessions := ss; stage_calls := [] |}
               uuid c x t in
  ∃ result,
    out.1 = inr result
    ∧ result !! "error" = Some VNone
    ∧ result !! "final_response" = Some (VStr (reply_text r2))
    ∧ result !! "final_state"
        = Some (VDict (<["final_response" := VStr (reply_text r2)]>
                         (state_after_analyzer r0 r1)))
    ∧ stages_run (store out.2) = sub_agents comment_interaction_agent.
Proof.
  intros Hk H0 H1 H2 Hne. cbv zeta.
  destruct (pipeline_invoke_fresh backend
              {| sessions := ss; stage_calls := [] |} uuid c x t Hk)
    as (result & -> & _ & Hfs & Hfr & Herr).
  pose proof (three_stage_cases backend c x t) as Hsm. cbv zeta in Hsm.
  rewrite H0, H1, H2 in Hsm. rewrite Hsm in *.
  cbn [sm_state sm_captured sm_error sm_calls] in *.
  exists result. split; [reflexivity |]. split; [exact Herr |].
  split; [| split; [exact Hfs | reflexivity]].
  rewrite Hfr. unfold extracted, dict_get. rewrite lookup_insert_eq.
  cbn [default from_option id]. cbn [truthy].
  by destruct (String.eqb_spec (reply_text r2) "").
Qed.

(** The value under [final_response] of a pipeline result is a text or
    [None]. *)
Lemma pipeline_response_is_text c x t :
  let sm := stage_summary backend (initial_message c x t)
              (sub_agents comment_interaction_agent) ∅ None in
  extracted (sm_state sm) (sm_captured sm) = VNone
  ∨ ∃ txt, extracted (sm_state sm) (sm_captured sm) = VStr txt.
Proof.
  cbv zeta.
  pose proof (three_stage_cases backend c x t) as Hsm. cbv zeta in Hsm.
  assert (Hopt : ∀ o : option string,
             of_opt_str o = VNone ∨ ∃ txt, of_opt_str o = VStr txt).
  { intros [txt |]; [right; by eexists | by left]. }
  destruct (backend state_setup_agent (setup_input c x t)) as [e0 | r0];
    [| destruct (backend comment_analyzer_agent (analyzer_input c x t r0))
         as [e1 | r1];
       [| destruct (backend comment_responder_agent
                      (responder_input c x t r0 r1)) as [e2 | r2] ] ];
    rewrite Hsm; cbn [sm_state sm_captured]; unfold extracted, dict_get.
  - rewrite lookup_empty. cbn [default from_option id].
    destruct (negb (truthy VNone) && truthy (of_opt_str None));
      [apply Hopt | by left].
  - unfold state_after_setup. rewrite lookup_insert_ne by done.
    rewrite lookup_empty. cbn [default from_option id].
    destruct (negb (truthy VNone) && truthy (of_opt_str (capture r0 None)));
      [apply Hopt | by left].
  - unfold state_after_analyzer, state_after_setup.
    do 2 (rewrite lookup_insert_ne by done).
    rewrite lookup_empty. cbn [default from_option id].
    destruct (negb (truthy VNone)
              && truthy (of_opt_str (capture r1 (capture r0 None))));
      [apply Hopt | by left].
  - rewrite lookup_insert_eq. cbn [default from_option id].
    destruct (negb (truthy (VStr (reply_text r2)))
              && truthy (of_opt_str
                           (capture r2 (capture r1 (capture r0 None)))));
      [apply Hopt | right; by eexists].
Qed.

(** X19.  On the in-memory store, [add_comment] answers every request for
    a known post with the stored comment, whatever the backend does and
    whatever the store holds: no failure of a stage and no collision of
    identifiers reaches the caller as an exception. *)
Theorem pipeline_add_comment_always_answers w uuid app post_slug request post :
  posts_get (mock_posts app) post_slug = Some post →
  ∃ cm app' fr,
    add_comment in_memory_service (pipeline_run backend) w uuid app
      post_slug request = (inr cm, app', fr).
Proof.
  intros Hget. unfold add_comment. rewrite Hget.
  change (invoke in_memory_service (pipeline_run backend) w uuid
            (rq_text request) (post_context post)
            (tone_literal (rq_tone request)))
    with (pipeline_invoke backend w uuid (rq_text request)
            (post_context post) (tone_literal (rq_tone request))).
  destruct (sessions w !! session_key uuid) as [st |] eqn:Hk.
  - rewrite (pipeline_invoke_duplicate backend w uuid _ _ _ st Hk).
    erewrite agent_response_of_error;
      [| apply lookup_singleton_eq | reflexivity].
    by eexists _, _, _.
  - destruct (pipeline_invoke_fresh backend w uuid (rq_text request)
                (post_context post) (tone_literal (rq_tone request)) Hk)
      as (result & -> & _ & _ & Hfr & Herr).
    destruct (sm_error _) as [e |].
    + erewrite agent_response_of_error; [| exact Herr | reflexivity].
      by eexists _, _, _.
    + unfold agent_response_of, dict_get. rewrite Herr, Hfr.
      cbn [default from_option id fmap option_fmap option_map of_opt_str truthy].
      destruct (pipeline_response_is_text (rq_text request)
                  (post_context post) (tone_literal (rq_tone request)))
        as [-> | [txt ->]]; cbn.
      * by eexists _, _, _.
      * destruct (negb (String.eqb txt "")); by eexists _, _, _.
Qed.

End PipelineIsolation.

(** ** Concrete runs of the web layer *)
Section BlogRuns.

Import Examples Scenarios Blog.

Lemma initial_ids : comment_ids (mock_posts initial_app) = ["c1"; "c2"; "c3"].
Proof. reflexivity. Qed.

Lemma initial_app_well_numbered : well_numbered initial_app.
Proof.
  unfold well_numbered. rewrite initial_ids. split.
  - repeat constructor; intros Hin;
      repeat (apply elem_of_cons in Hin as [Hin | Hin]; [discriminate Hin |]);
      by apply elem_of_nil in Hin.
  - intros i Hin.
    repeat (apply elem_of_cons in Hin as [-> | Hin]).
    + exists 1. split; [reflexivity | cbn; lia].
    + exists 2. split; [reflexivity | cbn; lia].
    + exists 3. split; [reflexivity | cbn; lia].
    + by apply elem_of_nil in Hin.
Qed.

Lemma mindful_coding_is_known :
  posts_get (mock_posts initial_app) "mindful-coding" = Some post_mindful_coding.
Proof. reflexivity. Qed.

Lemma no_such_post_is_unknown : "no-such-post" ∉ (mock_posts initial_app).*1.
Proof.
  change ("no-such-post"
          ∉ ["tech-trends-2024"; "mindful-coding"; "climate-action-now"]).
  intros Hin.
  repeat (apply elem_of_cons in Hin as [Hin | Hin]; [discriminate Hin |]).
  by apply elem_of_nil in Hin.
Qed.

(** The store of the examples refuses the session. *)
Lemma add_comment_on_broken_service :
  add_comment broken_service (quiet_run []) tt uuid initial_app
    "mindful-coding" request_0
  = (inr comment_4,
     {| mock_posts :=
          posts_append (mock_posts initial_app) "mindful-coding" comment_4;
        next_comment_id := 5 |},
     created_frame tt ("session_" +:+ uuid)).
Proof.
  apply (add_comment_refused broken_service (quiet_run []) tt uuid
           initial_app "mindful-coding" request_0 post_mindful_coding
           (Exception "store offline") tt).
  - exact mindful_coding_is_known.
  - reflexivity.
Qed.

(** X9, witness. *)
Lemma unknown_slug_is_not_found_witness :
  get_post initial_app "no-such-post"
    = inl (HTTPException 404 "Post not found")
  ∧ add_comment broken_service (quiet_run []) tt uuid initial_app
      "no-such-post" request_0
    = (inl (HTTPException 404 "Post not found"), initial_app, entry_frame tt).
Proof.
  apply (unknown_slug_is_not_found broken_service (quiet_run []) tt uuid
           initial_app "no-such-post" request_0).
  exact no_such_post_is_unknown.
Defined.

(** X11, witness. *)
Lemma added_comment_is_stored_witness :
  c_id comment_4 = "c" +:+ pretty (next_comment_id initial_app)
  ∧ c_commenter comment_4 = rq_commenter request_0
  ∧ c_text comment_4 = rq_text request_0
  ∧ 5 = S (next_comment_id initial_app)
  ∧ (∃ post,
       posts_get (mock_posts initial_app) "mindful-coding" = Some post
       ∧ get_post
           {| mock_posts :=
                posts_append (mock_posts initial_app) "mindful-coding"
                  comment_4;
              next_comment_id := 5 |} "mindful-coding"
         = inr {| pd_title := title post; pd_slug := slug post;
                  pd_content := content post;
                  pd_comments := comments post ++ [comment_4];
                  pd_audio_url := audio_url post |})
  ∧ (∀ other, other ≠ "mindful-coding" →
       get_post
         {| mock_posts :=
              posts_append (mock_posts initial_app) "mindful-coding" comment_4;
            next_comment_id := 5 |} other
       = get_post initial_app other).
Proof.
  apply (added_comment_is_stored broken_service (quiet_run []) tt uuid
           initial_app "mindful-coding" request_0 comment_4
           {| mock_posts :=
                posts_append (mock_posts initial_app) "mindful-coding"
                  comment_4;
              next_comment_id := 5 |}
           (created_frame tt ("session_" +:+ uuid))).
  exact add_comment_on_broken_service.
Defined.

(** X12, witness: the state at start-up is well numbered. *)
Lemma add_comment_keeps_numbering_witness :
  let out := add_comment broken_service (quiet_run []) tt uuid initial_app
               "mindful-coding" request_0 in
  well_numbered out.1.2
  ∧ ∀ cm, out.1.1 = inr cm → c_id cm ∉ comment_ids (mock_posts initial_app).
Proof.
  apply (add_comment_keeps_numbering broken_service (quiet_run []) tt uuid
           initial_app "mindful-coding" request_0).
  exact initial_app_well_numbered.
Defined.

(** X13, witness: the session is refused. *)
Lemma failed_run_stores_comment_without_response_witness :
  ∃ fr,
    add_comment broken_service (quiet_run []) tt uuid initial_app
      "mindful-coding" request_0
    = (inr {| c_id := "c" +:+ pretty (next_comment_id initial_app);
              c_commenter := rq_commenter request_0;
              c_text := rq_text request_0;
              c_agent_response := None |},
       {| mock_posts :=
            posts_append (mock_posts initial_app) "mindful-coding"
              {| c_id := "c" +:+ pretty (next_comment_id initial_app);
                 c_commenter := rq_commenter request_0;
                 c_text := rq_text request_0;
                 c_agent_response := None |};
          next_comment_id := S (next_comment_id initial_app) |},
       fr).
Proof.
  apply (failed_run_stores_comment_without_response broken_service
           (quiet_run []) tt uuid initial_app "mindful-coding" request_0
           post_mindful_coding).
  - exact mindful_coding_is_known.
  - intros (s & σ1 & captured & σ2 & s' & σ3 & Hc & _). discriminate Hc.
Defined.

(** X14, witness: the session read back holds a reply. *)
Lemma clean_run_attaches_the_response_witness :
  ∃ cm app' fr,
    add_comment (fixed_service replied_state) (quiet_run []) tt uuid
      initial_app "mindful-coding" request_0 = (inr cm, app', fr)
    ∧ c_agent_response cm
      = Some {| ar_tone := tone_literal (rq_tone request_0);
                ar_text := "Thanks a lot!" |}.
Proof.
  apply (clean_run_attaches_the_response (fixed_service replied_state)
           (quiet_run []) tt uuid initial_app "mindful-coding" request_0
           post_mindful_coding
           {| session_id_of := "session_" +:+ uuid; state := ∅ |} tt None tt
           {| session_id_of := "session_" +:+ uuid; state := replied_state |}
           tt "Thanks a lot!").
  - exact mindful_coding_is_known.
  - reflexivity.
  - reflexivity.
  - reflexivity.
  - apply lookup_singleton_eq.
  - discriminate.
Defined.

(** X15, witness. *)
Lemma add_comment_answers_when_responses_are_text_witness :
  ∃ cm app' fr,
    add_comment (fixed_service replied_state) (quiet_run []) tt uuid
      initial_app "mindful-coding" request_0 = (inr cm, app', fr).
Proof.
  apply (add_comment_answers_when_responses_are_text
           (fixed_service replied_state) (quiet_run []) tt uuid initial_app
           "mindful-coding" request_0 post_mindful_coding).
  - exact mindful_coding_is_known.
  - intros σa s' σb v [= <- _] Hk. cbn [state] in Hk. unfold replied_state in Hk.
    rewrite lookup_singleton_eq in Hk. injection Hk as <-.
    right. by eexists.
Defined.

(** X20, witness. *)
Lemma add_comment_sends_the_post_as_context_witness :
  ∃ reads,
    calls (add_comment (fixed_service replied_state) (quiet_run []) tt uuid
             initial_app "mindful-coding" request_0).2
    = CreateSession APP_NAME USER_ID ("session_" +:+ uuid)
      :: RunnerRun USER_ID ("session_" +:+ uuid)
           {| role := "user";
              parts :=
                Some [ {| text :=
                            Some (Json.dumps
                                    [("comment", rq_text request_0);
                                     ("context",
                                      "Blog Post Title: "
                                      +:+ title post_mindful_coding
                                      +:+ newline +:+ newline
                                      +:+ content post_mindful_coding);
                                     ("tone",
                                      tone_literal (rq_tone request_0))]) |} ] |}
      :: reads
    ∧ Forall (λ call, call = GetSession APP_NAME USER_ID ("session_" +:+ uuid))
        reads.
Proof.
  apply (add_comment_sends_the_post_as_context (fixed_service replied_state)
           (quiet_run []) tt uuid initial_app "mindful-coding" request_0
           post_mindful_coding
           {| session_id_of := "session_" +:+ uuid; state := ∅ |} tt).
  - exact mindful_coding_is_known.
  - reflexivity.
Defined.

(** X17, witness: two invocations on the empty store. *)
Lemma earlier_invocation_does_not_change_the_next_witness :
  ∃ after alone,
    (pipeline_invoke good_backend
       (store (pipeline_invoke good_backend empty_world uuid
                 comment context tone).2)
       "1b4e28ba-2fa1-11d2-883f-0016d3cca427" "Nice." context "neutral").1
      = inr after
    ∧ (pipeline_invoke good_backend empty_world
         "1b4e28ba-2fa1-11d2-883f-0016d3cca427" "Nice." context "neutral").1
      = inr alone
    ∧ ∀ k, k ∈ result_keys → after !! k = alone !! k.
Proof.
  apply (earlier_invocation_does_not_change_the_next good_backend empty_world
           uuid comment context tone
           "1b4e28ba-2fa1-11d2-883f-0016d3cca427" "Nice." context "neutral").
  - discriminate.
  - apply lookup_empty.
Defined.

(** X18, witness. *)
Lemma three_answers_give_the_reply_witness :
  let out := pipeline_invoke good_backend empty_world uuid comment context tone in
  ∃ result,
    out.1 = inr result
    ∧ result !! "error" = Some VNone
    ∧ result !! "final_response" = Some (VStr (reply_text responder_reply))
    ∧ result !! "final_state"
        = Some (VDict (<["final_response" := VStr (reply_text responder_reply)]>
                         (state_after_analyzer setup_reply analyzer_reply)))
    ∧ stages_run (store out.2) = sub_agents comment_interaction_agent.
Proof.
  apply (three_answers_give_the_reply good_backend ∅ uuid comment context tone
           setup_reply analyzer_reply responder_reply).
  - apply lookup_empty.
  - reflexivity.
  - reflexivity.
  - reflexivity.
  - discriminate.
Defined.

(** X19, witness: the Analyzer is down and the comment is stored all the
    same. *)
Lemma pipeline_add_comment_always_answers_witness :
  ∃ cm app' fr,
    add_comment in_memory_service (pipeline_run analyzer_down) empty_world
      uuid initial_app "mindful-coding" request_0 = (inr cm, app', fr).
Proof.
  apply (pipeline_add_comment_always_answers analyzer_down empty_world uuid
           initial_app "mindful-coding" request_0 post_mindful_coding).
  exact mindful_coding_is_known.
Defined.

End BlogRuns.
